(** * LinkedIn automation service: a shallow embedding of
    [linkedin_automation.py] and the properties of its browser-interaction
    core.

    The Python module talks to a browser through Selenium and to the disk
    through [open], [json] and [os].  Both are outside the module, so they
    are taken as an interface ([Selenium]) whose operations return the new
    state of the browser process, or of the host, together with a value or a
    raised exception.  The module's own functions are translated one by one
    on top of it. *)

From Stdlib Require Import String List Bool Arith Lia.
Import ListNotations.
Open Scope string_scope.
Open Scope list_scope.

Set Implicit Arguments.

(** ** Data *)

(** [selenium.webdriver.common.by.By], the two members the module uses. *)
Inductive By : Type := ID | XPATH.

(** A [WebElement] is a reference into the page; only its identity matters. *)
Definition Element : Type := nat.

(** One cookie record of [driver.get_cookies()]. *)
Record Cookie : Type := mkCookie { cookie_name : string; cookie_value : string }.

(** What [cookies.json] holds when it exists: the cookie list a completed
    [json.dump] wrote, or text [json.load] rejects (what a write that broke
    off after [open(..., 'w')] truncated the file has left). *)
Inductive FileContent : Type :=
| Json (cookies : list Cookie)
| Malformed.

(** Python exceptions.  [HTTPException] is the one the module raises itself;
    [LibError] stands for whatever Selenium, the driver or the OS raise
    (TimeoutException, WebDriverException, ...); [AttributeError] is the
    result of calling a method on [None].  All three derive from
    [Exception], so both [except:] and [except Exception] catch them. *)
Inductive exn : Type :=
| HTTPException (status_code : nat) (detail : string)
| LibError (what : string)
| AttributeError.

Inductive res (A : Type) : Type :=
| Ok (a : A)
| Raise (e : exn).
Arguments Ok {A} a.
Arguments Raise {A} e.

(** The dict an endpoint returns. *)
Record Response : Type := mkResponse { status : string; message : string }.

(** The model classes of the request bodies. *)
Record LoginCredentials : Type := mkCreds { email : string; passwd : string }.
Record ConnectProfile : Type := mkConnect { cp_profileLink : string }.
Record SendMessage : Type := mkSend { profileLink : string; messageText : string }.

(** ** State and exceptions *)

Module Exc.

(** A computation over a state [S] that returns or raises; the state
    survives a raise, as Python's side effects do. *)
Definition M (S A : Type) : Type := S -> S * res A.

Definition ret {S A} (a : A) : M S A := fun s => (s, Ok a).

Definition raise {S A} (e : exn) : M S A := fun s => (s, Raise e).

Definition bind {S A B} (m : M S A) (k : A -> M S B) : M S B :=
  fun s => match m s with
           | (s', Ok a) => k a s'
           | (s', Raise e) => (s', Raise e)
           end.

(** [try: m  except: h] (every exception of the model is an [Exception]). *)
Definition catch {S A} (m : M S A) (h : exn -> M S A) : M S A :=
  fun s => match m s with
           | (s', Ok a) => (s', Ok a)
           | (s', Raise e) => h e s'
           end.

End Exc.
Import Exc.

Declare Scope exc_scope.
Delimit Scope exc_scope with exc.
Notation "x <- m ;; k" := (bind m (fun x => k))
  (at level 61, m at next level, right associativity) : exc_scope.
Notation "m ;;; k" := (bind m (fun _ => k))
  (at level 61, right associativity) : exc_scope.
Open Scope exc_scope.

(** ** The browser interface *)

(** What the module asks of Selenium, undetected_chromedriver and the
    operating system.  [W] is the state of one browser process (page, clock,
    cookie jar), [H] the host on which browsers are launched and on whose
    disk [cookies.json] lives.  Every call may change the state and may
    raise. *)
Class Selenium (H W : Type) : Type := {
  (** [uc.Chrome(options=chrome_options, headless=False)] *)
  uc_Chrome : H -> H * res W;
  (** [open(self.session_file, 'w')]: when it returns the file exists and is
      empty; when it raises the file is as it was. *)
  open_write : M H unit;
  (** [json.dump(cookies, file)] and the close at the end of the [with]. *)
  json_dump : list Cookie -> M H unit;
  (** [open(self.session_file, 'r')] and the reading done by [json.load]:
      whether the host lets the file be read. *)
  read_file : M H unit;
  (** [os.remove(self.session_file)] *)
  os_remove : M H unit;
  (** [driver.execute_cdp_cmd('Page.addScriptToEvaluateOnNewDocument', ...)] *)
  execute_cdp_cmd : M W unit;
  (** [driver.get(url)] *)
  get : string -> M W unit;
  (** [driver.current_url] *)
  current_url : M W string;
  (** [driver.get_cookies()] *)
  get_cookies : M W (list Cookie);
  (** [driver.add_cookie(cookie)] *)
  add_cookie : Cookie -> M W unit;
  (** [driver.quit()] *)
  quit : M W unit;
  (** [WebDriverWait(driver, timeout).until(EC.presence_of_element_located((by, value)))] *)
  wait_presence : By -> string -> nat -> M W Element;
  (** [WebDriverWait(driver, timeout).until(EC.url_contains(s))] *)
  wait_url_contains : string -> nat -> M W unit;
  (** [element.is_displayed()] *)
  is_displayed : Element -> M W bool;
  (** [element.click()] *)
  click : Element -> M W unit;
  (** [element.clear()] *)
  clear : Element -> M W unit;
  (** [element.send_keys(text)] *)
  send_keys : Element -> string -> M W unit;
  (** [ActionChains(driver).move_to_element(element).click().perform()] *)
  move_click_perform : Element -> M W unit;
  (** [time.sleep(seconds)]: the page may change while the caller sleeps. *)
  sleep : nat -> W -> W
}.

(** The commands a driver object has been sent, in order. *)
Inductive Event : Type :=
| EvCdp
| EvGet (url : string)
| EvCurrentUrl
| EvGetCookies
| EvAddCookie (c : Cookie)
| EvQuit
| EvWait (by_ : By) (value : string) (timeout : nat)
| EvWaitUrl (s : string) (timeout : nat)
| EvIsDisplayed (e : Element)
| EvClick (e : Element)
| EvClear (e : Element)
| EvSendKeys (e : Element) (text : string)
| EvMoveClick (e : Element).

(** A driver object: the browser process it controls and the history of the
    commands issued through it. *)
Record Driver (W : Type) : Type := mkDriver { proc : W; log : list Event }.
Arguments mkDriver {W} proc log.

(** The module's global state: [browser_mgr.browser], the file named by
    [browser_mgr.session_file] (absent, or with its content), the host, and
    the number of browser processes [uc.Chrome] has launched so far. *)
Record St (H W : Type) : Type := mkSt {
  browser : option (Driver W);
  session_file : option FileContent;
  host : H;
  launched : nat
}.
Arguments mkSt {H W} browser session_file host launched.

(** Substring test, Python's [needle in hay]. *)
Fixpoint contains (needle hay : string) : bool :=
  if String.prefix needle hay then true
  else match hay with
       | EmptyString => false
       | String _ rest => contains needle rest
       end.

Section Program.

Context {H W : Type} `{Sel : Selenium H W}.

Local Notation "'DM'" := (M (Driver W)).
Local Notation "'SM'" := (M (St H W)).

(** Send one command through a driver object. *)
Definition call {A} (ev : Event) (op : M W A) : DM A :=
  fun d => let (w', r) := op (proc d) in
           (mkDriver w' (log d ++ [ev]), r).

(** [time.sleep(seconds)] while holding a driver. *)
Definition pause (seconds : nat) : DM unit :=
  fun d => (mkDriver (sleep seconds (proc d)) (log d), Ok tt).

(** *** [waitForElement] *)
Definition waitForElement (by_ : By) (value : string) (timeout : nat) : DM Element :=
  catch (call (EvWait by_ value timeout) (wait_presence by_ value timeout))
        (fun _ => raise (HTTPException 404 ("Element " ++ value ++ " not found")%string)).

(** *** [findConnectBtn] *)
Definition possible_selectors : list string :=
  [ "//button[contains(@aria-label, 'Invite') and contains(@aria-label, 'to connect')]";
    "//button[contains(text(), 'Connect')]";
    "//button[contains(@class, 'connect-button')]" ].

Definition more_actions : string := "//button[@aria-label='More actions']".
Definition dropdown_connect : string :=
  "//div[contains(@class, 'artdeco-dropdown')]//span[contains(text(), 'Connect')]".

(** The body of the [for selector in possible_selectors] loop: [Some button]
    is the [return button], [None] falls through to the next selector,
    either because [is_displayed()] was false or because of [except: continue]. *)
Definition try_selector (selector : string) : DM (option Element) :=
  catch (button <- waitForElement XPATH selector 10 ;;
         shown <- call (EvIsDisplayed button) (is_displayed button) ;;
         ret (if shown then Some button else None))
        (fun _ => ret None).

Fixpoint try_selectors (selectors : list string) : DM (option Element) :=
  match selectors with
  | [] => ret None
  | selector :: rest =>
      found <- try_selector selector ;;
      match found with
      | Some button => ret (Some button)
      | None => try_selectors rest
      end
  end.

(** The [try] block after the loop ("Maybe it's in a dropdown?"). *)
Definition menu_fallback : DM Element :=
  catch (more_btn <- waitForElement XPATH more_actions 10 ;;
         call (EvClick more_btn) (click more_btn) ;;;
         pause 1 ;;;
         connect_option <- waitForElement XPATH dropdown_connect 10 ;;
         ret connect_option)
        (fun _ => raise (HTTPException 404 "Connect button not found")).

Definition findConnectBtn : DM Element :=
  found <- try_selectors possible_selectors ;;
  match found with
  | Some button => ret button
  | None => menu_fallback
  end.

(** *** [checkIfConnected] *)
Definition first_degree_label : string := "//span[contains(text(), '1st')]".
Definition message_action : string := "//button[contains(text(), 'Message')]".
Definition connection_badge : string :=
  "//span[contains(@class, 'connection-status') and contains(text(), 'Connected')]".

Definition indicators : list string :=
  [ first_degree_label; message_action; connection_badge ].

Fixpoint check_indicators (inds : list string) : DM bool :=
  match inds with
  | [] => ret false
  | indicator :: rest =>
      catch (waitForElement XPATH indicator 5 ;;; ret true)
            (fun _ => check_indicators rest)
  end.

Definition checkIfConnected : DM bool := check_indicators indicators.

(** *** [BrowserManager] *)

Definition session_file_name : string := "cookies.json".

(** A method call on [browser_mgr.browser]; on [None] Python raises
    [AttributeError]. *)
Definition on_browser {A} (m : DM A) : SM A :=
  fun st => match browser st with
            | Some d => let (d', r) := m d in
                        (mkSt (Some d') (session_file st) (host st) (launched st), r)
            | None => (st, Raise AttributeError)
            end.

(** [self.browser = uc.Chrome(...)]: the attribute is assigned only when the
    constructor returns. *)
Definition launch : SM unit :=
  fun st => match uc_Chrome (host st) with
            | (h', Ok w) =>
                (mkSt (Some (mkDriver w [])) (session_file st) h' (S (launched st)), Ok tt)
            | (h', Raise e) =>
                (mkSt (browser st) (session_file st) h' (launched st), Raise e)
            end.

Definition startBrowser : SM unit :=
  catch (launch ;;;
         on_browser (call EvCdp execute_cdp_cmd))
        (fun _ => raise (HTTPException 500 "Couldn't start the browser!")).

(** [with open(self.session_file, 'w') as file: json.dump(cookies, file)].
    If [open] raises, the file is untouched.  Once it has returned the old
    content is gone: the file holds the cookies when the dump goes through
    and malformed text when it breaks off. *)
Definition write_session_file (cookies : list Cookie) : SM unit :=
  fun st => match open_write (host st) with
            | (h1, Raise x) =>
                (mkSt (browser st) (session_file st) h1 (launched st), Raise x)
            | (h1, Ok _) =>
                match json_dump cookies h1 with
                | (h2, Ok _) =>
                    (mkSt (browser st) (Some (Json cookies)) h2 (launched st), Ok tt)
                | (h2, Raise x) =>
                    (mkSt (browser st) (Some Malformed) h2 (launched st), Raise x)
                end
            end.

(** [with open(self.session_file, 'r') as file: cookies = json.load(file)]:
    the host may refuse the read, and [json.load] raises on malformed
    text. *)
Definition read_session_file : SM (list Cookie) :=
  fun st => match read_file (host st) with
            | (h1, Raise x) =>
                (mkSt (browser st) (session_file st) h1 (launched st), Raise x)
            | (h1, Ok _) =>
                (mkSt (browser st) (session_file st) h1 (launched st),
                 match session_file st with
                 | Some (Json cookies) => Ok cookies
                 | Some Malformed => Raise (LibError "JSONDecodeError")
                 | None => Raise (LibError "FileNotFoundError")
                 end)
            end.

(** [os.remove(self.session_file)]: the file is gone when it returns and
    still there when it raises. *)
Definition remove_session_file : SM unit :=
  fun st => match os_remove (host st) with
            | (h1, Ok _) => (mkSt (browser st) None h1 (launched st), Ok tt)
            | (h1, Raise x) =>
                (mkSt (browser st) (session_file st) h1 (launched st), Raise x)
            end.

(** [self.browser = None] *)
Definition forget_browser : SM unit :=
  fun st => (mkSt None (session_file st) (host st) (launched st), Ok tt).

Definition saveCookies : SM unit :=
  fun st => match browser st with
            | Some _ =>
                (cookies <- on_browser (call EvGetCookies get_cookies) ;;
                 write_session_file cookies) st
            | None => (st, Ok tt)
            end.

(** [for cookie in cookies: self.browser.add_cookie(cookie)] *)
Fixpoint add_cookies (cookies : list Cookie) : SM unit :=
  match cookies with
  | [] => ret tt
  | cookie :: rest =>
      on_browser (call (EvAddCookie cookie) (add_cookie cookie)) ;;;
      add_cookies rest
  end.

Definition loadCookies : SM unit :=
  fun st => match session_file st, browser st with
            | Some _, Some _ =>
                (cookies <- read_session_file ;;
                 add_cookies cookies) st
            | _, _ => (st, Ok tt)
            end.

Definition shutdown : SM unit :=
  fun st => match browser st with
            | Some _ =>
                (on_browser (call EvQuit quit) ;;;
                 forget_browser ;;;
                 (fun st' => match session_file st' with
                             | Some _ => remove_session_file st'
                             | None => (st', Ok tt)
                             end)) st
            | None => (st, Ok tt)
            end.

(** *** The endpoints *)

Definition ok (msg : string) : Response := mkResponse "ok" msg.

Definition login_url : string := "https://www.linkedin.com/login".

Definition doLogin (creds : LoginCredentials) : SM Response :=
  catch ((fun st => match browser st with
                    | None => startBrowser st
                    | Some _ => (st, Ok tt)
                    end) ;;;
         on_browser (call (EvGet login_url) (get login_url)) ;;;
         loadCookies ;;;
         url <- on_browser (call EvCurrentUrl current_url) ;;
         if contains "feed" url then ret (ok "Already logged in")
         else
           username_field <- on_browser (waitForElement ID "username" 10) ;;
           on_browser (call (EvClear username_field) (clear username_field)) ;;;
           on_browser (call (EvSendKeys username_field (email creds))
                            (send_keys username_field (email creds))) ;;;
           password_field <- on_browser (waitForElement ID "password" 10) ;;
           on_browser (call (EvClear password_field) (clear password_field)) ;;;
           on_browser (call (EvSendKeys password_field (passwd creds))
                            (send_keys password_field (passwd creds))) ;;;
           submit_btn <- on_browser (waitForElement XPATH "//button[@type='submit']" 10) ;;
           on_browser (call (EvClick submit_btn) (click submit_btn)) ;;;
           on_browser (call (EvWaitUrl "feed" 15) (wait_url_contains "feed" 15)) ;;;
           saveCookies ;;;
           ret (ok "Logged in successfully"))
        (fun _ => raise (HTTPException 400 "Login didn't work, check credentials")).

Definition send_now : string := "//button[contains(@aria-label, 'Send now')]".

Definition sendConnect (request : ConnectProfile) : SM Response :=
  catch ((fun st => match browser st with
                    | None => (st, Raise (HTTPException 400 "Need to login first!"))
                    | Some _ => (st, Ok tt)
                    end) ;;;
         on_browser (call (EvGet (cp_profileLink request)) (get (cp_profileLink request))) ;;;
         connect_button <- on_browser findConnectBtn ;;
         on_browser (call (EvMoveClick connect_button) (move_click_perform connect_button)) ;;;
         catch (send_btn <- on_browser (waitForElement XPATH send_now 5) ;;
                on_browser (call (EvClick send_btn) (click send_btn)))
               (fun _ => ret tt) ;;;
         saveCookies ;;;
         ret (ok "Connection request sent"))
        (fun _ => raise (HTTPException 400 "Couldn't send connection request")).

Definition message_button : string := "//button[contains(text(), 'Message')]".
Definition message_textbox : string := "//div[@role='textbox']".
Definition send_button : string := "//button[contains(text(), 'Send')]".

Definition checkAndMessage (request : SendMessage) : SM Response :=
  catch ((fun st => match browser st with
                    | None => (st, Raise (HTTPException 400 "Login required!"))
                    | Some _ => (st, Ok tt)
                    end) ;;;
         on_browser (call (EvGet (profileLink request)) (get (profileLink request))) ;;;
         connected <- on_browser checkIfConnected ;;
         if connected then
           message_btn <- on_browser (waitForElement XPATH message_button 10) ;;
           on_browser (call (EvMoveClick message_btn) (move_click_perform message_btn)) ;;;
           message_box <- on_browser (waitForElement XPATH message_textbox 10) ;;
           on_browser (call (EvSendKeys message_box (messageText request))
                            (send_keys message_box (messageText request))) ;;;
           send_btn <- on_browser (waitForElement XPATH send_button 10) ;;
           on_browser (call (EvClick send_btn) (click send_btn)) ;;;
           ret (ok "Message sent successfully")
         else
           ret (ok "Not connected yet"))
        (fun _ => raise (HTTPException 400 "Something went wrong with messaging")).

Definition closeBrowser : SM Response :=
  catch (shutdown ;;;
         ret (ok "Browser session closed"))
        (fun _ => raise (HTTPException 500 "Couldn't close the browser")).

(** *** Vocabulary of the statements *)

(** Whether the presence wait on an indicator resolves from state [w], and
    the state it leaves behind. *)
Definition resolves (indicator : string) (w : W) : bool :=
  match snd (wait_presence XPATH indicator 5 w) with
  | Ok _ => true
  | Raise _ => false
  end.

Definition after_wait (indicator : string) (w : W) : W :=
  fst (wait_presence XPATH indicator 5 w).

(** A page whose answers do not move while the locator looks at it: on every
    state in [P], and [P] is closed under the locator's two queries, the
    presence wait for selector [s] yields [found s] and [is_displayed] yields
    [shown].  A strategy [s] is satisfiable on such a page when
    [found s = Some e] with [shown e = true]. *)
Definition stable_page (P : W -> Prop) (found : string -> option Element)
    (shown : Element -> bool) : Prop :=
  (forall w s, P w ->
     P (fst (wait_presence XPATH s 10 w)) /\
     match snd (wait_presence XPATH s 10 w), found s with
     | Ok e, Some e' => e = e'
     | Raise _, None => True
     | _, _ => False
     end) /\
  (forall w e, P w ->
     P (fst (is_displayed e w)) /\ snd (is_displayed e w) = Ok (shown e)).

(** The three ways the "More actions" fallback of [findConnectBtn] can fail
    from driver [d1], with the driver each leaves behind. *)
Inductive fallback_fails (d1 d' : Driver W) : Prop :=
| no_menu_button w x :
    wait_presence XPATH more_actions 10 (proc d1) = (w, Raise x) ->
    d' = mkDriver w (log d1 ++ [EvWait XPATH more_actions 10]) ->
    fallback_fails d1 d'
| menu_click_raises w2 more_btn w3 x :
    wait_presence XPATH more_actions 10 (proc d1) = (w2, Ok more_btn) ->
    click more_btn w2 = (w3, Raise x) ->
    d' = mkDriver w3 (log d1 ++ [EvWait XPATH more_actions 10; EvClick more_btn]) ->
    fallback_fails d1 d'
| no_menu_entry w2 more_btn w3 w5 x :
    wait_presence XPATH more_actions 10 (proc d1) = (w2, Ok more_btn) ->
    click more_btn w2 = (w3, Ok tt) ->
    wait_presence XPATH dropdown_connect 10 (sleep 1 w3) = (w5, Raise x) ->
    d' = mkDriver w5 (log d1 ++ [EvWait XPATH more_actions 10; EvClick more_btn;
                                 EvWait XPATH dropdown_connect 10]) ->
    fallback_fails d1 d'.

(** What the inner [try] of Connect leaves behind from driver [d3]: the
    expired wait for "Send now", or the wait and the click on the button it
    found, whatever that click did. *)
Inductive confirmation (d3 d4 : Driver W) : Prop :=
| not_shown w4 x :
    wait_presence XPATH send_now 5 (proc d3) = (w4, Raise x) ->
    d4 = mkDriver w4 (log d3 ++ [EvWait XPATH send_now 5]) ->
    confirmation d3 d4
| shown_and_pressed w4 send_btn w5 clicked :
    wait_presence XPATH send_now 5 (proc d3) = (w4, Ok send_btn) ->
    click send_btn w4 = (w5, clicked) ->
    d4 = mkDriver w5 (log d3 ++ [EvWait XPATH send_now 5; EvClick send_btn]) ->
    confirmation d3 d4.

(** A step that launches no browser and neither creates nor drops the
    manager's handle. *)
Definition same_handle (st st' : St H W) : Prop :=
  launched st' = launched st /\ (browser st' = None <-> browser st = None).

Definition keeps {A} (m : SM A) : Prop :=
  forall st, same_handle st (fst (m st)).

(** Seconds of waiting a log asks of the browser: the sum of the timeouts
    of its [WebDriverWait]s ([time.sleep] is not a driver command and is not
    in the log). *)
Definition wait_seconds (l : list Event) : nat :=
  fold_right (fun ev n => match ev with
                          | EvWait _ _ timeout | EvWaitUrl _ timeout => timeout + n
                          | _ => n
                          end) 0 l.

(** A driver computation that adds at most [n] seconds of waits. *)
Definition spends {A} (n : nat) (m : DM A) : Prop :=
  forall d, wait_seconds (log (fst (m d))) <= wait_seconds (log d) + n.

(** The waits on the log of the manager's handle, none without a handle. *)
Definition waited (st : St H W) : nat :=
  match browser st with
  | Some d => wait_seconds (log d)
  | None => 0
  end.

Definition spends_st {A} (n : nat) (m : SM A) : Prop :=
  forall st, waited (fst (m st)) <= waited st + n.

(** Commands that only look at the page. *)
Definition observes (ev : Event) : bool :=
  match ev with
  | EvWait _ _ _ | EvIsDisplayed _ => true
  | _ => false
  end.

(** A step that never touches the snapshot file, one that touches it only
    when it returns, and one that, when it raises, has left the file as it
    was or malformed by a write that broke off. *)
Definition leaves_disk {A} (m : SM A) : Prop :=
  forall st, session_file (fst (m st)) = session_file st.

Definition fails_clean {A} (m : SM A) : Prop :=
  forall st, match snd (m st) with
             | Raise _ => session_file (fst (m st)) = session_file st
             | Ok _ => True
             end.

Definition fails_torn {A} (m : SM A) : Prop :=
  forall st, match snd (m st) with
             | Raise _ => session_file (fst (m st)) = session_file st \/
                          session_file (fst (m st)) = Some Malformed
             | Ok _ => True
             end.

End Program.

(** ** A scripted browser

    A small executable instance of the interface, on which the statements
    below are run: a page is a table from selectors to the first element
    they match, a set of hidden elements, and what a click reveals.  Its
    disk never fails. *)
Module Toy.

Record Page : Type := mkPage {
  url : string;
  landing : list (string * string);
  dom : list (By * string * Element);
  hidden : list Element;
  reveal : list (Element * (By * string * Element));
  jar : list Cookie;
  quit_raises : bool
}.

Definition by_eqb (a b : By) : bool :=
  match a, b with
  | ID, ID | XPATH, XPATH => true
  | _, _ => false
  end.

Fixpoint lookup (by_ : By) (value : string) (table : list (By * string * Element))
  : option Element :=
  match table with
  | [] => None
  | (b, v, e) :: rest =>
      if by_eqb by_ b && String.eqb value v then Some e else lookup by_ value rest
  end.

Fixpoint lands (target : string) (table : list (string * string)) : string :=
  match table with
  | [] => target
  | (from, to) :: rest => if String.eqb target from then to else lands target rest
  end.

Definition revealed (e : Element) (p : Page) : list (By * string * Element) :=
  map snd (filter (fun r => Nat.eqb (fst r) e) (reveal p)).

Definition with_url (p : Page) (u : string) : Page :=
  mkPage u (landing p) (dom p) (hidden p) (reveal p) (jar p) (quit_raises p).

Definition with_dom (p : Page) (t : list (By * string * Element)) : Page :=
  mkPage (url p) (landing p) t (hidden p) (reveal p) (jar p) (quit_raises p).

Definition with_jar (p : Page) (j : list Cookie) : Page :=
  mkPage (url p) (landing p) (dom p) (hidden p) (reveal p) j (quit_raises p).

Definition timeout_error : exn := LibError "TimeoutException".

Definition press (e : Element) : M Page unit :=
  fun p => (with_dom p (dom p ++ revealed e p), Ok tt).

#[export] Instance scripted : Selenium (list Page) Page := {
  uc_Chrome h := match h with
                 | [] => ([], Raise (LibError "chrome not found"))
                 | p :: rest => (rest, Ok p)
                 end;
  open_write := ret tt;
  json_dump _ := ret tt;
  read_file := ret tt;
  os_remove := ret tt;
  execute_cdp_cmd := ret tt;
  get target := fun p => (with_url p (lands target (landing p)), Ok tt);
  current_url := fun p => (p, Ok (url p));
  get_cookies := fun p => (p, Ok (jar p));
  add_cookie c := fun p => (with_jar p (jar p ++ [c]), Ok tt);
  quit := fun p => (p, if quit_raises p then Raise (LibError "quit") else Ok tt);
  wait_presence by_ value _ :=
    fun p => (p, match lookup by_ value (dom p) with
                 | Some e => Ok e
                 | None => Raise timeout_error
                 end);
  wait_url_contains s _ :=
    fun p => (p, if contains s (url p) then Ok tt else Raise timeout_error);
  is_displayed e := fun p => (p, Ok (negb (existsb (Nat.eqb e) (hidden p))));
  click := press;
  clear _ := ret tt;
  send_keys _ _ := ret tt;
  move_click_perform := press;
  sleep _ p := p
}.

Definition blank : Page := mkPage "about:blank" [] [] [] [] [] false.

(** A profile page showing two connect buttons at once: the one the second
    selector matches and the one the third matches; the first selector
    matches a hidden button. *)
Definition two_buttons : Page :=
  mkPage "about:blank" []
         [ (XPATH, "//button[contains(@aria-label, 'Invite') and contains(@aria-label, 'to connect')]", 7);
           (XPATH, "//button[contains(text(), 'Connect')]", 8);
           (XPATH, "//button[contains(@class, 'connect-button')]", 9) ]
         [7] [] [] false.

(** A profile page whose connect action is only in the "More actions" menu;
    [menu_hidden] says whether the revealed entry is displayed. *)
Definition menu_only (menu_hidden : bool) : Page :=
  mkPage "about:blank" []
         [ (XPATH, "//button[@aria-label='More actions']", 1) ]
         (if menu_hidden then [2] else [])
         [ (1, (XPATH, "//div[contains(@class, 'artdeco-dropdown')]//span[contains(text(), 'Connect')]", 2)) ]
         [] false.

(** A profile page of a first-degree connection: only the Message button. *)
Definition connected_profile : Page :=
  mkPage "about:blank" []
         [ (XPATH, "//button[contains(text(), 'Message')]", 4) ]
         [] [] [] false.

(** A browser that lands on the feed when asked for the login page. *)
Definition signed_in : Page :=
  mkPage "about:blank"
         [ ("https://www.linkedin.com/login", "https://www.linkedin.com/feed/") ]
         [] [] [] [] false.

Definition session_cookie : Cookie := mkCookie "li_at" "AQEDAT".

Definition fresh (p : Page) : Driver Page := mkDriver p [].

Definition running (p : Page) (file : option (list Cookie)) : St (list Page) Page :=
  mkSt (Some (fresh p)) (option_map Json file) [] 1.

Definition stopped (file : option (list Cookie)) (h : list Page) : St (list Page) Page :=
  mkSt None (option_map Json file) h 0.

Definition creds : LoginCredentials := mkCreds "a@x.com" "pw".

End Toy.

(** ** A scripted browser whose clicks navigate, on a host that can fail

    The pages of [Toy] with links on top: clicking a linked element loads
    the link's target in place of what [Toy] does on a click, and clicking
    a stuck element raises.  The host has a disk that can refuse to open
    the snapshot for writing, break off a dump, refuse a read or refuse to
    remove the file. *)
Module Site.

Import Toy.

Record Nav : Type := mkNav {
  here : Page;
  links : list (Element * string);
  cdp_blocked : bool;
  refused : list string;
  stuck : list Element
}.

Inductive DiskFault : Type :=
| read_only
| disk_full
| unreadable
| undeletable.

Record Machine : Type := mkMachine {
  spare : list Nav;
  fault : option DiskFault
}.

Definition on_page (n : Nav) (p : Page) : Nav :=
  mkNav p (links n) (cdp_blocked n) (refused n) (stuck n).

Definition lift {A} (op : M Page A) : M Nav A :=
  fun n => let (p, r) := op (here n) in (on_page n p, r).

Fixpoint target (e : Element) (table : list (Element * string)) : option string :=
  match table with
  | [] => None
  | (e', u) :: rest => if Nat.eqb e e' then Some u else target e rest
  end.

Definition follow (e : Element) : M Nav unit :=
  fun n => if existsb (Nat.eqb e) (stuck n)
           then (n, Raise (LibError "ElementClickInterceptedException"))
           else match target e (links n) with
                | Some u => (on_page n (with_url (here n) u), Ok tt)
                | None => lift (press e) n
                end.

Definition failing (f : DiskFault) (what : string) : M Machine unit :=
  fun m => (m, match fault m, f with
               | Some read_only, read_only
               | Some disk_full, disk_full
               | Some unreadable, unreadable
               | Some undeletable, undeletable => Raise (LibError what)
               | _, _ => Ok tt
               end).

#[export] Instance navigating : Selenium Machine Nav := {
  uc_Chrome m := match spare m with
                 | [] => (m, Raise (LibError "chrome not found"))
                 | n :: rest => (mkMachine rest (fault m), Ok n)
                 end;
  open_write := failing read_only "PermissionError";
  json_dump _ := failing disk_full "OSError: No space left on device";
  read_file := failing unreadable "PermissionError";
  os_remove := failing undeletable "PermissionError";
  execute_cdp_cmd :=
    fun n => (n, if cdp_blocked n then Raise (LibError "cdp") else Ok tt);
  get address := lift (get address);
  current_url := lift current_url;
  get_cookies := lift get_cookies;
  add_cookie c :=
    fun n => if existsb (String.eqb (cookie_name c)) (refused n)
             then (n, Raise (LibError "InvalidCookieDomainException"))
             else lift (add_cookie c) n;
  quit := lift quit;
  wait_presence by_ value timeout := lift (wait_presence by_ value timeout);
  wait_url_contains s timeout := lift (wait_url_contains s timeout);
  is_displayed e := lift (is_displayed e);
  click := follow;
  clear e := lift (clear e);
  send_keys e text := lift (send_keys e text);
  move_click_perform := follow;
  sleep _ n := n
}.

(** The login page: the two fields and the submit button, which leads to
    the feed; the browser holds one cookie. *)
Definition login_form : Page :=
  mkPage "about:blank" []
         [ (ID, "username", 1); (ID, "password", 2);
           (XPATH, "//button[@type='submit']", 3) ]
         [] [] [session_cookie] false.

Definition login_site : Nav :=
  mkNav login_form [(3, "https://www.linkedin.com/feed/")] false [] [].

(** A browser on which the anti-detection script cannot be installed. *)
Definition no_cdp : Nav := mkNav blank [] true [] [].

(** A browser that refuses the cookie named "bcookie". *)
Definition picky : Nav := mkNav blank [] false ["bcookie"] [].

Definition other_cookie : Cookie := mkCookie "bcookie" "v=2".
Definition last_cookie : Cookie := mkCookie "lang" "en".

(** A profile page with a connect button and a confirmation button. *)
Definition with_confirmation : Page :=
  mkPage "about:blank" []
         [ (XPATH, "//button[contains(text(), 'Connect')]", 8);
           (XPATH, "//button[contains(@aria-label, 'Send now')]", 11) ]
         [] [] [] false.

(** The same page in a browser where the given elements cannot be clicked. *)
Definition jammed (elements : list Element) : Nav :=
  mkNav with_confirmation [] false [] elements.

(** A profile page of a connection, with all the messaging controls. *)
Definition messaging : Page :=
  mkPage "about:blank" []
         [ (XPATH, "//button[contains(text(), 'Message')]", 4);
           (XPATH, "//div[@role='textbox']", 5);
           (XPATH, "//button[contains(text(), 'Send')]", 6) ]
         [] [] [] false.

Definition someone : string := "https://www.linkedin.com/in/someone".

(** A host with no spare browser and the given disk fault. *)
Definition machine (f : option DiskFault) : Machine := mkMachine [] f.

(** A service with browser [n] running on a host with disk fault [f]. *)
Definition serving (n : Nav) (file : option FileContent) (f : option DiskFault)
  : St Machine Nav :=
  mkSt (Some (mkDriver n [])) file (machine f) 1.

End Site.

(** ** How the helpers step *)

Section Steps.

Context {H W : Type} `{Sel : Selenium H W}.

Lemma call_step {A} (ev : Event) (op : M W A) (d : Driver W) w' r :
  op (proc d) = (w', r) ->
  call ev op d = (mkDriver w' (log d ++ [ev]), r).
Proof. intros E. unfold call. now rewrite E. Qed.

Lemma waitForElement_found by_ value timeout (d : Driver W) w' e :
  wait_presence by_ value timeout (proc d) = (w', Ok e) ->
  waitForElement by_ value timeout d
  = (mkDriver w' (log d ++ [EvWait by_ value timeout]), Ok e).
Proof.
  intros E. unfold waitForElement, catch.
  now rewrite (call_step _ _ _ E).
Qed.

Lemma waitForElement_missing by_ value timeout (d : Driver W) w' x :
  wait_presence by_ value timeout (proc d) = (w', Raise x) ->
  waitForElement by_ value timeout d
  = (mkDriver w' (log d ++ [EvWait by_ value timeout]),
     Raise (HTTPException 404 ("Element " ++ value ++ " not found")%string)).
Proof.
  intros E. unfold waitForElement, catch.
  now rewrite (call_step _ _ _ E).
Qed.

(** [waitForElement] only ever raises its own 404. *)
Lemma waitForElement_inv by_ value timeout (d d' : Driver W) r :
  waitForElement by_ value timeout d = (d', r) ->
  log d' = log d ++ [EvWait by_ value timeout] /\
  ((exists e, r = Ok e /\ wait_presence by_ value timeout (proc d) = (proc d', Ok e)) \/
   (exists x, r = Raise (HTTPException 404 ("Element " ++ value ++ " not found")%string) /\
              wait_presence by_ value timeout (proc d) = (proc d', Raise x))).
Proof.
  destruct (wait_presence by_ value timeout (proc d)) as [w' [e | x]] eqn:E; intros R.
  - rewrite (waitForElement_found _ _ _ _ E) in R. inversion R; subst; clear R.
    split; [reflexivity | left; now exists e].
  - rewrite (waitForElement_missing _ _ _ _ E) in R. inversion R; subst; clear R.
    split; [reflexivity | right; now exists x].
Qed.

Lemma on_browser_step {A} (m : M (Driver W) A) (st : St H W) d d' r :
  browser st = Some d ->
  m d = (d', r) ->
  on_browser m st = (mkSt (Some d') (session_file st) (host st) (launched st), r).
Proof. intros B E. unfold on_browser. now rewrite B, E. Qed.

(** *** One direct strategy *)

Lemma try_selector_visible s (d : Driver W) w2 e w3 :
  wait_presence XPATH s 10 (proc d) = (w2, Ok e) ->
  is_displayed e w2 = (w3, Ok true) ->
  try_selector s d
  = (mkDriver w3 (log d ++ [EvWait XPATH s 10; EvIsDisplayed e]), Ok (Some e)).
Proof.
  intros E1 E2. unfold try_selector, catch, bind.
  rewrite (waitForElement_found _ _ _ _ E1).
  unfold call; cbn [proc log]. rewrite E2. cbn.
  now rewrite <- app_assoc.
Qed.

Lemma try_selector_hidden s (d : Driver W) w2 e w3 :
  wait_presence XPATH s 10 (proc d) = (w2, Ok e) ->
  is_displayed e w2 = (w3, Ok false) ->
  try_selector s d
  = (mkDriver w3 (log d ++ [EvWait XPATH s 10; EvIsDisplayed e]), Ok None).
Proof.
  intros E1 E2. unfold try_selector, catch, bind.
  rewrite (waitForElement_found _ _ _ _ E1).
  unfold call; cbn [proc log]. rewrite E2. cbn.
  now rewrite <- app_assoc.
Qed.

Lemma try_selector_absent s (d : Driver W) w2 x :
  wait_presence XPATH s 10 (proc d) = (w2, Raise x) ->
  try_selector s d = (mkDriver w2 (log d ++ [EvWait XPATH s 10]), Ok None).
Proof.
  intros E1. unfold try_selector, catch, bind.
  now rewrite (waitForElement_missing _ _ _ _ E1).
Qed.

(** A strategy yields an element only when the presence wait found it and
    [is_displayed()] answered [True]; it never raises. *)
Lemma try_selector_inv s (d d' : Driver W) r :
  try_selector s d = (d', r) ->
  (exists w2 e, r = Ok (Some e) /\
     wait_presence XPATH s 10 (proc d) = (w2, Ok e) /\
     is_displayed e w2 = (proc d', Ok true) /\
     log d' = log d ++ [EvWait XPATH s 10; EvIsDisplayed e]) \/
  r = Ok None.
Proof.
  destruct (wait_presence XPATH s 10 (proc d)) as [w2 [e | x]] eqn:E1.
  - destruct (is_displayed e w2) as [w3 [[|] | y]] eqn:E2; intros R.
    + rewrite (try_selector_visible _ _ E1 E2) in R. inversion R; subst; clear R.
      left. exists w2, e. cbn. auto.
    + rewrite (try_selector_hidden _ _ E1 E2) in R. inversion R; now right.
    + right. revert R. unfold try_selector, catch, bind.
      rewrite (waitForElement_found _ _ _ _ E1).
      unfold call; cbn [proc log]. rewrite E2. cbn. now inversion 1.
  - intros R. rewrite (try_selector_absent _ _ E1) in R. inversion R; now right.
Qed.

(** *** The loop over the direct strategies *)

Lemma try_selectors_cons s rest (d : Driver W) :
  try_selectors (s :: rest) d
  = match try_selector s d with
    | (d1, Ok (Some button)) => (d1, Ok (Some button))
    | (d1, Ok None) => try_selectors rest d1
    | (d1, Raise x) => (d1, Raise x)
    end.
Proof.
  cbn [try_selectors]. unfold bind.
  destruct (try_selector s d) as [d1 [[b|]|x]]; reflexivity.
Qed.

Lemma try_selectors_app pre post (d d1 : Driver W) :
  try_selectors pre d = (d1, Ok None) ->
  try_selectors (pre ++ post) d = try_selectors post d1.
Proof.
  revert d. induction pre as [|s pre IH]; intros d E.
  - cbn in E. inversion E. reflexivity.
  - cbn [app]. rewrite try_selectors_cons in *.
    destruct (try_selector s d) as [d0 [[b|]|x]]; try discriminate.
    now apply IH.
Qed.

Lemma try_selectors_total sels (d : Driver W) :
  exists found, snd (try_selectors sels d) = Ok found.
Proof.
  revert d. induction sels as [|s sels IH]; intros d.
  - now exists None.
  - rewrite try_selectors_cons.
    destruct (try_selector s d) as [d1 r] eqn:E.
    destruct (try_selector_inv _ _ E) as [(w2 & e & -> & _) | ->].
    + now exists (Some e).
    + apply IH.
Qed.

(** Where a returned element comes from: the first strategy, in declared
    order, whose match was present and displayed when it was tried. *)
Lemma try_selectors_origin sels (d d' : Driver W) e :
  try_selectors sels d = (d', Ok (Some e)) ->
  exists pre s post d1 w2,
    sels = pre ++ s :: post /\
    try_selectors pre d = (d1, Ok None) /\
    wait_presence XPATH s 10 (proc d1) = (w2, Ok e) /\
    is_displayed e w2 = (proc d', Ok true) /\
    log d' = log d1 ++ [EvWait XPATH s 10; EvIsDisplayed e].
Proof.
  revert d. induction sels as [|s sels IH]; intros d E.
  - discriminate.
  - rewrite try_selectors_cons in E.
    destruct (try_selector s d) as [d0 r] eqn:E0.
    destruct (try_selector_inv _ _ E0) as [(w2 & e0 & -> & E1 & E2 & L) | ->].
    + inversion E; subst; clear E.
      exists [], s, sels, d, w2. cbn. auto.
    + destruct (IH _ E) as (pre & s' & post & d1 & w2 & -> & P & E1 & E2 & L).
      exists (s :: pre), s', post, d1, w2. repeat split; auto.
      rewrite try_selectors_cons, E0. exact P.
Qed.

(** On a stable page a strategy answers by [found] and [shown]. *)
Lemma try_selector_stable P found shown s (d : Driver W) :
  stable_page P found shown -> P (proc d) ->
  P (proc (fst (try_selector s d))) /\
  snd (try_selector s d)
  = Ok (match found s with
        | Some e => if shown e then Some e else None
        | None => None
        end).
Proof.
  intros [HW HD] Pd.
  destruct (HW _ s Pd) as [P1 A1].
  destruct (wait_presence XPATH s 10 (proc d)) as [w2 [e | x]] eqn:E1; cbn in *.
  - destruct (found s) as [e'|]; [subst e' | contradiction].
    destruct (HD _ e P1) as [P2 A2].
    destruct (is_displayed e w2) as [w3 r] eqn:E2; cbn in *. subst r.
    destruct (shown e).
    + rewrite (try_selector_visible _ _ E1 E2). now split.
    + rewrite (try_selector_hidden _ _ E1 E2). now split.
  - destruct (found s); [contradiction|].
    rewrite (try_selector_absent _ _ E1). now split.
Qed.

Lemma try_selectors_stable_none P found shown sels (d : Driver W) :
  stable_page P found shown -> P (proc d) ->
  (forall s e, In s sels -> found s = Some e -> shown e = false) ->
  P (proc (fst (try_selectors sels d))) /\
  snd (try_selectors sels d) = Ok None.
Proof.
  intros SP. revert d. induction sels as [|s sels IH]; intros d Pd U.
  - now split.
  - rewrite try_selectors_cons.
    destruct (try_selector_stable s d SP Pd) as [P1 A1].
    destruct (try_selector s d) as [d1 r]; cbn in *. subst r.
    assert (N : match found s with
                | Some e => if shown e then Some e else None
                | None => None
                end = None).
    { destruct (found s) as [e|] eqn:F; [|reflexivity].
      now rewrite (U s e (or_introl eq_refl) F). }
    rewrite N. apply IH; [assumption|].
    intros s' e' I. apply U. now right.
Qed.

End Steps.

(** ** The resilient locator *)

Section Locator.

Context {H W : Type} `{Sel : Selenium H W}.

Lemma findConnectBtn_direct (d d' : Driver W) e :
  try_selectors possible_selectors d = (d', Ok (Some e)) ->
  findConnectBtn d = (d', Ok e).
Proof. intros E. unfold findConnectBtn, bind. now rewrite E. Qed.

Lemma findConnectBtn_spent (d d1 : Driver W) :
  try_selectors possible_selectors d = (d1, Ok None) ->
  findConnectBtn d = menu_fallback d1.
Proof. intros E. unfold findConnectBtn, bind. now rewrite E. Qed.

Lemma menu_fallback_found (d1 : Driver W) w2 more_btn w3 w5 c :
  wait_presence XPATH more_actions 10 (proc d1) = (w2, Ok more_btn) ->
  click more_btn w2 = (w3, Ok tt) ->
  wait_presence XPATH dropdown_connect 10 (sleep 1 w3) = (w5, Ok c) ->
  menu_fallback d1
  = (mkDriver w5 (log d1 ++ [EvWait XPATH more_actions 10; EvClick more_btn;
                             EvWait XPATH dropdown_connect 10]), Ok c).
Proof.
  intros E1 E2 E3. unfold menu_fallback, catch, bind, pause.
  rewrite (waitForElement_found _ _ _ _ E1).
  rewrite (call_step (EvClick more_btn) (click more_btn) (mkDriver w2 _) E2).
  cbn [proc log].
  rewrite (waitForElement_found XPATH dropdown_connect 10 (mkDriver _ _) E3).
  cbn [proc log ret]. now rewrite <- !app_assoc.
Qed.

Lemma menu_fallback_fails (d1 d' : Driver W) :
  fallback_fails d1 d' ->
  menu_fallback d1 = (d', Raise (HTTPException 404 "Connect button not found")).
Proof.
  intros [w x E1 -> | w2 m w3 x E1 E2 -> | w2 m w3 w5 x E1 E2 E3 ->];
    unfold menu_fallback, catch, bind, pause, raise.
  - now rewrite (waitForElement_missing _ _ _ _ E1).
  - rewrite (waitForElement_found _ _ _ _ E1).
    rewrite (call_step (EvClick m) (click m) (mkDriver w2 _) E2).
    cbn [proc log]. now rewrite <- !app_assoc.
  - rewrite (waitForElement_found _ _ _ _ E1).
    rewrite (call_step (EvClick m) (click m) (mkDriver w2 _) E2).
    cbn [proc log].
    rewrite (waitForElement_missing XPATH dropdown_connect 10 (mkDriver _ _) E3).
    cbn [proc log]. now rewrite <- !app_assoc.
Qed.

(** The menu path either goes all the way or fails in one of three ways. *)
Lemma menu_fallback_cases (d1 : Driver W) :
  (exists w2 more_btn w3 w5 c,
     wait_presence XPATH more_actions 10 (proc d1) = (w2, Ok more_btn) /\
     click more_btn w2 = (w3, Ok tt) /\
     wait_presence XPATH dropdown_connect 10 (sleep 1 w3) = (w5, Ok c)) \/
  (exists d', fallback_fails d1 d').
Proof.
  destruct (wait_presence XPATH more_actions 10 (proc d1)) as [w2 [m | x]] eqn:E1.
  - destruct (click m w2) as [w3 [[] | x]] eqn:E2.
    + destruct (wait_presence XPATH dropdown_connect 10 (sleep 1 w3))
        as [w5 [c | x]] eqn:E3.
      * left. now exists w2, m, w3, w5, c.
      * right. eexists. eapply no_menu_entry; eauto.
    + right. eexists. eapply menu_click_raises; eauto.
  - right. eexists. eapply no_menu_button; eauto.
Qed.

(** What the "More actions" path does once the direct strategies are spent. *)
Lemma findConnectBtn_menu (d d1 : Driver W) :
  try_selectors possible_selectors d = (d1, Ok None) ->
  (exists w2 more_btn w3 w5 c,
     wait_presence XPATH more_actions 10 (proc d1) = (w2, Ok more_btn) /\
     click more_btn w2 = (w3, Ok tt) /\
     wait_presence XPATH dropdown_connect 10 (sleep 1 w3) = (w5, Ok c) /\
     findConnectBtn d
     = (mkDriver w5 (log d1 ++ [EvWait XPATH more_actions 10; EvClick more_btn;
                                EvWait XPATH dropdown_connect 10]), Ok c)) \/
  (exists d', fallback_fails d1 d' /\
     findConnectBtn d = (d', Raise (HTTPException 404 "Connect button not found"))).
Proof.
  intros E. rewrite (findConnectBtn_spent _ E).
  destruct (menu_fallback_cases d1) as [(w2 & m & w3 & w5 & c & E1 & E2 & E3) | (d' & F)].
  - left. exists w2, m, w3, w5, c. repeat split; auto.
    exact (menu_fallback_found _ E1 E2 E3).
  - right. exists d'. split; [assumption | now apply menu_fallback_fails].
Qed.

(** C1.  On a page whose answers stay put while the locator runs, the
    locator returns the element of the highest-priority satisfiable
    strategy: if [s] is satisfiable (its match [e] is present and displayed)
    and no strategy declared before it is, the loop returns [e], whatever
    the strategies declared after [s] would match.  This holds for every
    strategy list, and so for [findConnectBtn] and its own list. *)
Theorem findConnectBtn_highest_priority
    (P : W -> Prop) (found : string -> option Element) (shown : Element -> bool)
    (sels pre : list string) (s : string) (post : list string)
    (e : Element) (d : Driver W) :
  stable_page P found shown ->
  P (proc d) ->
  sels = pre ++ s :: post ->
  (forall s' e', In s' pre -> found s' = Some e' -> shown e' = false) ->
  found s = Some e ->
  shown e = true ->
  snd (try_selectors sels d) = Ok (Some e) /\
  (sels = possible_selectors -> snd (findConnectBtn d) = Ok e).
Proof.
  intros SP Pd -> U F V.
  assert (R : snd (try_selectors (pre ++ s :: post) d) = Ok (Some e)).
  { destruct (try_selectors_stable_none pre d SP Pd U) as [P1 N].
    destruct (try_selectors pre d) as [d1 r] eqn:E; cbn in *. subst r.
    rewrite (try_selectors_app _ (s :: post) _ E), try_selectors_cons.
    destruct (try_selector_stable s d1 SP P1) as [_ A].
    destruct (try_selector s d1) as [d2 r]; cbn in *. subst r.
    now rewrite F, V. }
  split; [exact R|].
  intros Q. rewrite Q in R.
  destruct (try_selectors possible_selectors d) as [d' r] eqn:E; cbn in R. subst r.
  now rewrite (findConnectBtn_direct _ E).
Qed.

(** C2, as the code has it.  An element [findConnectBtn] returns came either
    from a direct strategy, and then the presence wait found it and
    [is_displayed()] answered [True] for it, every strategy declared before
    having been given up; or from the "More actions" menu once all direct
    strategies were given up, where it is the element the presence wait on
    the menu entry found.  A present-but-hidden direct match is given up
    after that single look.  [waitForElement] returns exactly what the
    presence wait finds. *)
Theorem findConnectBtn_direct_match_visible (d d' : Driver W) (e : Element) :
  findConnectBtn d = (d', Ok e) ->
  ((exists pre s post d1 w2,
      possible_selectors = pre ++ s :: post /\
      try_selectors pre d = (d1, Ok None) /\
      wait_presence XPATH s 10 (proc d1) = (w2, Ok e) /\
      is_displayed e w2 = (proc d', Ok true)) \/
   (exists d1 w,
      try_selectors possible_selectors d = (d1, Ok None) /\
      wait_presence XPATH dropdown_connect 10 w = (proc d', Ok e))) /\
  (forall s rest d0 w2 h w3,
      wait_presence XPATH s 10 (proc d0) = (w2, Ok h) ->
      is_displayed h w2 = (w3, Ok false) ->
      try_selectors (s :: rest) d0
      = try_selectors rest (mkDriver w3 (log d0 ++ [EvWait XPATH s 10; EvIsDisplayed h]))) /\
  (forall by_ value timeout d0 d0' e0,
      waitForElement by_ value timeout d0 = (d0', Ok e0) <->
      wait_presence by_ value timeout (proc d0) = (proc d0', Ok e0) /\
      log d0' = log d0 ++ [EvWait by_ value timeout]).
Proof.
  intros R. split; [|split].
  - destruct (try_selectors possible_selectors d) as [d1 r] eqn:E.
    destruct (try_selectors_total possible_selectors d) as [found T].
    rewrite E in T; cbn in T; subst r. destruct found as [b|].
    + rewrite (findConnectBtn_direct _ E) in R. inversion R; subst; clear R.
      destruct (try_selectors_origin _ _ E) as (pre & s & post & d0 & w2 & Q & N & E1 & E2 & _).
      left. now exists pre, s, post, d0, w2.
    + right. destruct (findConnectBtn_menu _ E) as
        [(w2 & m & w3 & w5 & c & E1 & E2 & E3 & F) | (d2 & _ & F)];
        rewrite F in R; inversion R; subst; clear R.
      exists d1, (sleep 1 w3). now split.
  - intros s rest d0 w2 h w3 E1 E2.
    now rewrite try_selectors_cons, (try_selector_hidden _ _ E1 E2).
  - intros by_ value timeout d0 d0' e0. split.
    + intros E. destruct (waitForElement_inv _ _ _ _ E) as [L [(e1 & Q & E1) | (x & Q & _)]].
      * inversion Q; subst. now split.
      * discriminate.
    + intros [E L]. rewrite (waitForElement_found _ _ _ _ E).
      destruct d0' as [w l]; cbn in *. now subst.
Qed.

(** C3.  Once every direct strategy has been given up, [findConnectBtn]
    goes through the "More actions" menu once: when the menu button is
    found and clicked and the menu entry is found, the entry is returned;
    and the locator raises only the 404 "Connect button not found", only
    after the direct strategies were given up and that one fallback failed. *)
Theorem findConnectBtn_menu_fallback (d : Driver W) :
  (forall d1 w2 more_btn w3 w5 c,
     try_selectors possible_selectors d = (d1, Ok None) ->
     wait_presence XPATH more_actions 10 (proc d1) = (w2, Ok more_btn) ->
     click more_btn w2 = (w3, Ok tt) ->
     wait_presence XPATH dropdown_connect 10 (sleep 1 w3) = (w5, Ok c) ->
     findConnectBtn d
     = (mkDriver w5 (log d1 ++ [EvWait XPATH more_actions 10; EvClick more_btn;
                                EvWait XPATH dropdown_connect 10]), Ok c)) /\
  (forall d' x,
     findConnectBtn d = (d', Raise x) ->
     x = HTTPException 404 "Connect button not found" /\
     exists d1, try_selectors possible_selectors d = (d1, Ok None) /\
                fallback_fails d1 d').
Proof.
  split.
  - intros d1 w2 m w3 w5 c E E1 E2 E3.
    destruct (findConnectBtn_menu _ E) as
      [(w2' & m' & w3' & w5' & c' & E1' & E2' & E3' & F) | (d2 & FF & F)].
    + rewrite E1 in E1'. inversion E1'; subst.
      rewrite E2 in E2'. inversion E2'; subst.
      rewrite E3 in E3'. inversion E3'; subst. exact F.
    + exfalso. destruct FF as [w x A _ | w2' m' w3' x A B _ | w2' m' w3' w5' x A B C _].
      * rewrite E1 in A. discriminate.
      * rewrite E1 in A. inversion A; subst. rewrite E2 in B. discriminate.
      * rewrite E1 in A. inversion A; subst. rewrite E2 in B. inversion B; subst.
        rewrite E3 in C. discriminate.
  - intros d' x R.
    destruct (try_selectors possible_selectors d) as [d1 r] eqn:E.
    destruct (try_selectors_total possible_selectors d) as [found T].
    rewrite E in T; cbn in T; subst r. destruct found as [b|].
    + rewrite (findConnectBtn_direct _ E) in R. discriminate.
    + destruct (findConnectBtn_menu _ E) as
        [(w2 & m & w3 & w5 & c & _ & _ & _ & F) | (d2 & FF & F)];
        rewrite F in R; inversion R; subst; clear R.
      split; [reflexivity|]. now exists d1.
Qed.

End Locator.

(** ** The connectivity probe *)

Section Probe.

Context {H W : Type} `{Sel : Selenium H W}.

Lemma check_indicators_cons indicator rest (d : Driver W) :
  check_indicators (indicator :: rest) d
  = match wait_presence XPATH indicator 5 (proc d) with
    | (w', Ok _) => (mkDriver w' (log d ++ [EvWait XPATH indicator 5]), Ok true)
    | (w', Raise _) =>
        check_indicators rest (mkDriver w' (log d ++ [EvWait XPATH indicator 5]))
    end.
Proof.
  cbn [check_indicators]. unfold catch, bind.
  destruct (wait_presence XPATH indicator 5 (proc d)) as [w' [e | x]] eqn:E.
  - now rewrite (waitForElement_found _ _ _ _ E).
  - now rewrite (waitForElement_missing _ _ _ _ E).
Qed.

(** The probe is total: whatever the waits do, it answers [True] or [False]. *)
Lemma check_indicators_total inds (d : Driver W) :
  exists b, snd (check_indicators inds d) = Ok b.
Proof.
  revert d. induction inds as [|i inds IH]; intros d.
  - now exists false.
  - rewrite check_indicators_cons.
    destruct (wait_presence XPATH i 5 (proc d)) as [w' [e | x]].
    + now exists true.
    + apply IH.
Qed.

Lemma checkIfConnected_run (d : Driver W) :
  let w1 := after_wait first_degree_label (proc d) in
  let w2 := after_wait message_action w1 in
  snd (checkIfConnected d)
  = Ok (resolves first_degree_label (proc d)
        || resolves message_action w1
        || resolves connection_badge w2) /\
  log (fst (checkIfConnected d))
  = log d ++ EvWait XPATH first_degree_label 5 ::
      (if resolves first_degree_label (proc d) then []
       else EvWait XPATH message_action 5 ::
              (if resolves message_action w1 then []
               else [EvWait XPATH connection_badge 5])).
Proof.
  unfold checkIfConnected, indicators, resolves, after_wait.
  rewrite check_indicators_cons.
  destruct (wait_presence XPATH first_degree_label 5 (proc d)) as [w1 [e1 | x1]];
    cbn [fst snd proc log]; [now split|].
  rewrite check_indicators_cons. cbn [proc log].
  destruct (wait_presence XPATH message_action 5 w1) as [w2 [e2 | x2]];
    cbn [fst snd proc log orb]; [split; [reflexivity | now rewrite <- app_assoc]|].
  rewrite check_indicators_cons. cbn [proc log].
  destruct (wait_presence XPATH connection_badge 5 w2) as [w3 [e3 | x3]];
    cbn [fst snd proc log orb check_indicators ret];
    (split; [reflexivity | now rewrite <- !app_assoc]).
Qed.

(** C4.  [checkIfConnected] never raises.  It answers [True] exactly when
    one of the three indicators resolves under its 5 second wait, each tried
    in order from the state its predecessors' expired waits left; so when
    none resolves the answer is [False].  The first indicator that resolves
    settles the answer: no later indicator is waited for. *)
Theorem checkIfConnected_probe (d : Driver W) :
  let w1 := after_wait first_degree_label (proc d) in
  let w2 := after_wait message_action w1 in
  snd (checkIfConnected d)
  = Ok (resolves first_degree_label (proc d)
        || resolves message_action w1
        || resolves connection_badge w2) /\
  log (fst (checkIfConnected d))
  = log d ++ EvWait XPATH first_degree_label 5 ::
      (if resolves first_degree_label (proc d) then []
       else EvWait XPATH message_action 5 ::
              (if resolves message_action w1 then []
               else [EvWait XPATH connection_badge 5])).
Proof. exact (checkIfConnected_run d). Qed.

Lemma checkIfConnected_false_log (d d2 : Driver W) :
  checkIfConnected d = (d2, Ok false) ->
  log d2 = log d ++ [EvWait XPATH first_degree_label 5;
                     EvWait XPATH message_action 5;
                     EvWait XPATH connection_badge 5].
Proof.
  intros E. destruct (checkIfConnected_run d) as [R L].
  rewrite E in R, L. cbn [fst snd] in R, L.
  inversion R as [B]. symmetry in B.
  apply orb_false_iff in B as [B B3]. apply orb_false_iff in B as [B1 B2].
  now rewrite L, B1, B2.
Qed.

End Probe.

(** ** The workflow *)

Section Workflow.

Context {H W : Type} `{Sel : Selenium H W}.

Lemma bind_ok {S A B} (m : M S A) (k : A -> M S B) s s' a :
  m s = (s', Ok a) -> bind m k s = k a s'.
Proof. intros E. unfold bind. now rewrite E. Qed.

Lemma bind_raise {S A B} (m : M S A) (k : A -> M S B) s s' x :
  m s = (s', Raise x) -> bind m k s = (s', Raise x).
Proof. intros E. unfold bind. now rewrite E. Qed.

Lemma catch_ok {S A} (m : M S A) (h : exn -> M S A) s s' a :
  m s = (s', Ok a) -> catch m h s = (s', Ok a).
Proof. intros E. unfold catch. now rewrite E. Qed.

Lemma catch_raise {S A} (m : M S A) (h : exn -> M S A) s s' x :
  m s = (s', Raise x) -> catch m h s = h x s'.
Proof. intros E. unfold catch. now rewrite E. Qed.

Lemma write_session_file_done (st : St H W) cookies h1 h2 :
  open_write (host st) = (h1, Ok tt) ->
  json_dump cookies h1 = (h2, Ok tt) ->
  write_session_file cookies st
  = (mkSt (browser st) (Some (Json cookies)) h2 (launched st), Ok tt).
Proof. intros O D. unfold write_session_file. now rewrite O, D. Qed.

Lemma write_session_file_refused (st : St H W) cookies h1 x :
  open_write (host st) = (h1, Raise x) ->
  write_session_file cookies st
  = (mkSt (browser st) (session_file st) h1 (launched st), Raise x).
Proof. intros O. unfold write_session_file. now rewrite O. Qed.

Lemma write_session_file_torn (st : St H W) cookies h1 h2 x :
  open_write (host st) = (h1, Ok tt) ->
  json_dump cookies h1 = (h2, Raise x) ->
  write_session_file cookies st
  = (mkSt (browser st) (Some Malformed) h2 (launched st), Raise x).
Proof. intros O D. unfold write_session_file. now rewrite O, D. Qed.

Lemma saveCookies_step (st : St H W) d w' cookies h1 h2 :
  browser st = Some d ->
  get_cookies (proc d) = (w', Ok cookies) ->
  open_write (host st) = (h1, Ok tt) ->
  json_dump cookies h1 = (h2, Ok tt) ->
  saveCookies st
  = (mkSt (Some (mkDriver w' (log d ++ [EvGetCookies]))) (Some (Json cookies))
          h2 (launched st), Ok tt).
Proof.
  intros B E O D. unfold saveCookies. rewrite B.
  erewrite bind_ok by (eapply on_browser_step; [exact B | eapply call_step; exact E]).
  now rewrite (write_session_file_done (mkSt _ _ _ _) _ O D).
Qed.

(** The three ways [saveCookies] raises with a browser: the browser keeps
    its cookies, the file cannot be opened, or the dump breaks off. *)
Lemma saveCookies_no_cookies (st : St H W) d w' x :
  browser st = Some d ->
  get_cookies (proc d) = (w', Raise x) ->
  saveCookies st
  = (mkSt (Some (mkDriver w' (log d ++ [EvGetCookies]))) (session_file st)
          (host st) (launched st), Raise x).
Proof.
  intros B E. unfold saveCookies. rewrite B.
  now erewrite bind_raise
    by (eapply on_browser_step; [exact B | eapply call_step; exact E]).
Qed.

Lemma saveCookies_refused (st : St H W) d w' cookies h1 x :
  browser st = Some d ->
  get_cookies (proc d) = (w', Ok cookies) ->
  open_write (host st) = (h1, Raise x) ->
  saveCookies st
  = (mkSt (Some (mkDriver w' (log d ++ [EvGetCookies]))) (session_file st)
          h1 (launched st), Raise x).
Proof.
  intros B E O. unfold saveCookies. rewrite B.
  erewrite bind_ok by (eapply on_browser_step; [exact B | eapply call_step; exact E]).
  now rewrite (write_session_file_refused (mkSt _ _ _ _) _ O).
Qed.

Lemma saveCookies_torn (st : St H W) d w' cookies h1 h2 x :
  browser st = Some d ->
  get_cookies (proc d) = (w', Ok cookies) ->
  open_write (host st) = (h1, Ok tt) ->
  json_dump cookies h1 = (h2, Raise x) ->
  saveCookies st
  = (mkSt (Some (mkDriver w' (log d ++ [EvGetCookies]))) (Some Malformed)
          h2 (launched st), Raise x).
Proof.
  intros B E O D. unfold saveCookies. rewrite B.
  erewrite bind_ok by (eapply on_browser_step; [exact B | eapply call_step; exact E]).
  now rewrite (write_session_file_torn (mkSt _ _ _ _) _ O D).
Qed.

(** Loading a snapshot sends one [add_cookie] per record and nothing else. *)
Lemma add_cookies_done cookies (st st' : St H W) d :
  browser st = Some d ->
  add_cookies cookies st = (st', Ok tt) ->
  exists d', browser st' = Some d' /\
             log d' = log d ++ map EvAddCookie cookies /\
             session_file st' = session_file st /\
             host st' = host st /\ launched st' = launched st.
Proof.
  revert st d. induction cookies as [|c cs IH]; intros st d B E.
  - cbn in E. inversion E; subst. exists d. rewrite app_nil_r. auto.
  - cbn [add_cookies] in E.
    destruct (add_cookie c (proc d)) as [w1 [[] | x]] eqn:A.
    + erewrite bind_ok in E
        by (eapply on_browser_step; [exact B | eapply call_step; exact A]).
      destruct (IH (mkSt (Some (mkDriver w1 (log d ++ [EvAddCookie c])))
                         (session_file st) (host st) (launched st)) _ eq_refl E)
        as (d' & B' & L & F & Hh & N).
      exists d'. cbn in *. rewrite <- app_assoc in L. auto.
    + erewrite bind_raise in E
        by (eapply on_browser_step; [exact B | eapply call_step; exact A]).
      discriminate.
Qed.

Lemma loadCookies_done (st st' : St H W) d :
  browser st = Some d ->
  loadCookies st = (st', Ok tt) ->
  exists d', browser st' = Some d' /\
             log d' = log d ++ map EvAddCookie
                                   (match session_file st with
                                    | Some (Json cookies) => cookies
                                    | _ => []
                                    end) /\
             session_file st' = session_file st /\
             launched st' = launched st.
Proof.
  intros B E. unfold loadCookies in E. rewrite B in E.
  destruct (session_file st) as [content|] eqn:F.
  - unfold bind, read_session_file in E. rewrite F in E.
    destruct (read_file (host st)) as [h1 [[] | x]]; [|discriminate].
    destruct content as [cookies|]; [|discriminate].
    destruct (add_cookies_done cookies
                (mkSt (browser st) (Some (Json cookies)) h1 (launched st)) B E)
      as (d' & B' & L & F' & _ & N).
    exists d'. auto.
  - inversion E; subst. exists d. rewrite app_nil_r. auto.
Qed.

(** *** Steps that leave the handle alone *)

Lemma same_handle_refl (st : St H W) : same_handle st st.
Proof. split; tauto. Qed.

Lemma same_handle_trans (a b c : St H W) :
  same_handle a b -> same_handle b c -> same_handle a c.
Proof. intros [L1 B1] [L2 B2]. split; [congruence | tauto]. Qed.

Lemma keeps_ret {A} (a : A) : keeps (@ret (St H W) A a).
Proof. intros st. apply same_handle_refl. Qed.

Lemma keeps_raise {A} x : keeps (@raise (St H W) A x).
Proof. intros st. apply same_handle_refl. Qed.

Lemma keeps_bind {A B} (m : M (St H W) A) (k : A -> M (St H W) B) :
  keeps m -> (forall a, keeps (k a)) -> keeps (bind m k).
Proof.
  intros Km Kk st. unfold bind. specialize (Km st).
  destruct (m st) as [st1 [a | x]]; cbn in *; [|assumption].
  eapply same_handle_trans; [exact Km | apply Kk].
Qed.

Lemma keeps_catch {A} (m : M (St H W) A) (h : exn -> M (St H W) A) :
  keeps m -> (forall x, keeps (h x)) -> keeps (catch m h).
Proof.
  intros Km Kh st. unfold catch. specialize (Km st).
  destruct (m st) as [st1 [a | x]]; cbn in *; [assumption|].
  eapply same_handle_trans; [exact Km | apply Kh].
Qed.

Lemma keeps_on_browser {A} (m : M (Driver W) A) : keeps (H:=H) (W:=W) (on_browser m).
Proof.
  intros st. unfold on_browser.
  destruct (browser st) as [d|] eqn:B.
  - destruct (m d) as [d' r]. split; cbn; [reflexivity|].
    rewrite B. split; discriminate.
  - apply same_handle_refl.
Qed.

Lemma keeps_write_session_file cookies : keeps (H:=H) (W:=W) (write_session_file cookies).
Proof.
  intros st. unfold write_session_file.
  destruct (open_write (host st)) as [h1 [u | x]]; [|split; cbn; tauto].
  destruct (json_dump cookies h1) as [h2 [u' | x]]; split; cbn; tauto.
Qed.

Lemma keeps_saveCookies : keeps (H:=H) (W:=W) saveCookies.
Proof.
  intros st. unfold saveCookies. destruct (browser st) eqn:B.
  - apply keeps_bind; [apply keeps_on_browser | apply keeps_write_session_file].
  - apply same_handle_refl.
Qed.

Lemma keeps_add_cookies cookies : keeps (H:=H) (W:=W) (add_cookies cookies).
Proof.
  induction cookies as [|c cs IH]; cbn [add_cookies].
  - apply keeps_ret.
  - apply keeps_bind; [apply keeps_on_browser | intros _; exact IH].
Qed.

Lemma keeps_read_session_file : keeps (H:=H) (W:=W) read_session_file.
Proof.
  intros st. unfold read_session_file.
  destruct (read_file (host st)) as [h1 [u | x]]; split; cbn; tauto.
Qed.

Lemma keeps_loadCookies : keeps (H:=H) (W:=W) loadCookies.
Proof.
  intros st. unfold loadCookies.
  destruct (session_file st); [|apply same_handle_refl].
  destruct (browser st); [|apply same_handle_refl].
  apply keeps_bind; [apply keeps_read_session_file | intros; apply keeps_add_cookies].
Qed.

Lemma keeps_guarded {A} (g : M (St H W) unit) (t : M (St H W) A)
    (h : exn -> M (St H W) A) (st : St H W) :
  keeps t -> (forall x, keeps (h x)) ->
  same_handle (fst (g st)) (fst (catch (g ;;; t) h st)).
Proof.
  intros Kt Kh. unfold catch, bind.
  destruct (g st) as [st1 [[] | x]]; cbn [fst].
  - specialize (Kt st1). destruct (t st1) as [st2 [a | y]]; cbn in *; [assumption|].
    eapply same_handle_trans; [exact Kt | apply Kh].
  - apply Kh.
Qed.

Ltac frame :=
  repeat first
    [ apply keeps_ret | apply keeps_raise | apply keeps_on_browser
    | apply keeps_saveCookies | apply keeps_loadCookies
    | apply keeps_bind; [|intros]
    | apply keeps_catch; [|intros]
    | match goal with |- keeps (if ?c then _ else _) => destruct c end ].

(** A command sent through the manager's handle. *)
Ltac through tac :=
  eapply on_browser_step; [first [eassumption | reflexivity] | tac].

(** *** [startBrowser] and Login *)

Lemma startBrowser_launched (st : St H W) h' w :
  uc_Chrome (host st) = (h', Ok w) ->
  launched (fst (startBrowser st)) = S (launched st) /\
  browser (fst (startBrowser st))
  = Some (mkDriver (fst (execute_cdp_cmd w)) [EvCdp]).
Proof.
  intros E. unfold startBrowser, catch, bind, launch, on_browser, call, raise.
  rewrite E. cbn.
  destruct (execute_cdp_cmd w) as [w' [[] | x]]; cbn; auto.
Qed.

Lemma startBrowser_handle (st : St H W) :
  same_handle st (fst (startBrowser st)) \/
  (browser (fst (startBrowser st)) <> None /\
   launched (fst (startBrowser st)) = S (launched st)).
Proof.
  destruct (uc_Chrome (host st)) as [h' [w | x]] eqn:E.
  - right. destruct (startBrowser_launched st E) as [L B].
    split; [rewrite B; discriminate | exact L].
  - left. unfold startBrowser, catch, bind, launch, raise. rewrite E.
    split; cbn; tauto.
Qed.

Lemma doLogin_handle creds (st : St H W) :
  (browser st <> None -> same_handle st (fst (doLogin creds st))) /\
  (browser st = None ->
   same_handle st (fst (doLogin creds st)) \/
   (browser (fst (doLogin creds st)) <> None /\
    launched (fst (doLogin creds st)) = S (launched st))).
Proof.
  unfold doLogin.
  match goal with
  | |- context [catch (?g ;;; ?t) ?h st] =>
      assert (K : same_handle (fst (g st)) (fst (catch (g ;;; t) h st)))
        by (apply keeps_guarded; [frame | intros; apply keeps_raise]);
      set (out := fst (catch (g ;;; t) h st)) in *
  end.
  cbv beta in K.
  split; intros B.
  - destruct (browser st) eqn:B0; [exact K | contradiction].
  - rewrite B in K.
    destruct (startBrowser_handle st) as [S0 | [B1 L1]].
    + left. eapply same_handle_trans; eassumption.
    + right. destruct K as [L [K1 K2]]. split; [tauto | congruence].
Qed.

(** C5, as the code has it.  [startBrowser] launches a browser process every
    time the host lets it, whether or not a handle exists, and puts the new
    handle in place of the old.  The guard is in Login, which starts a
    browser only when there is no handle: a Login with a handle launches
    nothing and keeps a handle, and two Logins in a row launch at most one
    browser process. *)
Theorem doLogin_launches_at_most_once creds1 creds2 (st : St H W) :
  let st1 := fst (doLogin creds1 st) in
  let st2 := fst (doLogin creds2 st1) in
  (forall h' w, uc_Chrome (host st) = (h', Ok w) ->
     launched (fst (startBrowser st)) = S (launched st) /\
     browser (fst (startBrowser st))
     = Some (mkDriver (fst (execute_cdp_cmd w)) [EvCdp])) /\
  (browser st <> None -> launched st1 = launched st /\ browser st1 <> None) /\
  launched st2 <= S (launched st).
Proof.
  intros st1 st2. split; [|split].
  - intros h' w E. exact (startBrowser_launched st E).
  - intros B. destruct (doLogin_handle creds1 st) as [K _].
    destruct (K B) as [L [K1 _]]. split; [exact L | tauto].
  - destruct (doLogin_handle creds1 st) as [K1 K1'].
    destruct (doLogin_handle creds2 st1) as [K2 K2'].
    fold st1 in K1, K1'. fold st2 in K2, K2'.
    assert (A : launched st1 = launched st /\ (browser st1 = None -> True) \/
                (browser st1 <> None /\ launched st1 = S (launched st))).
    { destruct (browser st) eqn:B.
      - left. destruct K1 as [L _]; [discriminate | auto].
      - destruct (K1' eq_refl) as [[L _] | [B1 L]]; [left | right]; auto. }
    destruct A as [[L1 _] | [B1 L1]].
    + destruct (browser st1) eqn:B1.
      * destruct K2 as [L2 _]; [discriminate | lia].
      * destruct (K2' eq_refl) as [[L2 _] | [_ L2]]; lia.
    + destruct (K2 B1) as [L2 _]. lia.
Qed.

(** C6.  Once a browser is there (it was, or [startBrowser] succeeded), the
    login page was loaded and the snapshot, if any, was injected, a current
    URL containing "feed" makes Login answer "Already logged in".  All that
    was sent to the browser is the navigation, one [add_cookie] per record of
    the snapshot and the URL query: no field is waited for, cleared, typed
    into or clicked, and the snapshot file is left as it was. *)
Theorem doLogin_already_logged_in creds (st st1 st3 : St H W) d1 w2 d3 w4 url :
  match browser st with
  | Some _ => st1 = st
  | None => startBrowser st = (st1, Ok tt)
  end ->
  browser st1 = Some d1 ->
  get login_url (proc d1) = (w2, Ok tt) ->
  loadCookies (mkSt (Some (mkDriver w2 (log d1 ++ [EvGet login_url])))
                    (session_file st1) (host st1) (launched st1)) = (st3, Ok tt) ->
  browser st3 = Some d3 ->
  current_url (proc d3) = (w4, Ok url) ->
  contains "feed" url = true ->
  doLogin creds st
  = (mkSt (Some (mkDriver w4 (log d3 ++ [EvCurrentUrl])))
          (session_file st3) (host st3) (launched st3),
     Ok (ok "Already logged in")) /\
  log d3 = log d1 ++ EvGet login_url ::
             map EvAddCookie (match session_file st1 with
                              | Some (Json cookies) => cookies
                              | _ => []
                              end) /\
  session_file st3 = session_file st1.
Proof.
  intros S0 B1 G L B3 U C. split.
  - unfold doLogin.
    erewrite catch_ok; [reflexivity|].
    erewrite bind_ok with (s' := st1) (a := tt)
      by (cbv beta; destruct (browser st); [now subst | exact S0]).
    erewrite bind_ok by (through ltac:(eapply call_step; exact G)).
    erewrite bind_ok by exact L.
    erewrite bind_ok by (through ltac:(eapply call_step; exact U)).
    now rewrite C.
  - destruct (loadCookies_done
                (mkSt (Some (mkDriver w2 (log d1 ++ [EvGet login_url])))
                      (session_file st1) (host st1) (launched st1)) eq_refl L)
      as (d' & B' & Lg & F & _).
    rewrite B3 in B'. inversion B'; subst d'.
    cbn [log session_file] in Lg, F. rewrite <- app_assoc in Lg. now split.
Qed.

(** *** Connect *)

(** The inner [try] of Connect never raises: it leaves the driver that
    [confirmation] describes and nothing else changed. *)
Lemma confirmation_block (st0 : St H W) d3 d4 :
  browser st0 = Some d3 ->
  confirmation d3 d4 ->
  catch (send_btn <- on_browser (waitForElement XPATH send_now 5) ;;
         on_browser (call (EvClick send_btn) (click send_btn)))
        (fun _ => ret tt) st0
  = (mkSt (Some d4) (session_file st0) (host st0) (launched st0), Ok tt).
Proof.
  intros B [w4 x E -> | w4 send_btn w5 clicked E C ->]; unfold catch, bind, ret.
  - now rewrite (on_browser_step _ _ B (waitForElement_missing _ _ _ _ E)).
  - rewrite (on_browser_step _ _ B (waitForElement_found _ _ _ _ E)).
    rewrite (on_browser_step (call (EvClick send_btn) (click send_btn))
               (mkSt _ _ _ _) eq_refl (call_step _ _ (mkDriver w4 _) C)).
    cbn [proc log session_file host launched]. rewrite <- app_assoc.
    now destruct clicked as [[] | y].
Qed.

(** Connect up to its last step: once the connect action was clicked, the
    outcome is that of [saveCookies], with any exception replaced. *)
Lemma sendConnect_to_save request (st : St H W) d w1 d2 connect_button w3 d4 :
  browser st = Some d ->
  get (cp_profileLink request) (proc d) = (w1, Ok tt) ->
  findConnectBtn (mkDriver w1 (log d ++ [EvGet (cp_profileLink request)]))
  = (d2, Ok connect_button) ->
  move_click_perform connect_button (proc d2) = (w3, Ok tt) ->
  confirmation (mkDriver w3 (log d2 ++ [EvMoveClick connect_button])) d4 ->
  sendConnect request st
  = match saveCookies (mkSt (Some d4) (session_file st) (host st) (launched st)) with
    | (st5, Ok _) => (st5, Ok (ok "Connection request sent"))
    | (st5, Raise _) =>
        (st5, Raise (HTTPException 400 "Couldn't send connection request"))
    end.
Proof.
  intros B G F P K.
  unfold sendConnect. unfold catch at 1.
  erewrite bind_ok with (s' := st) (a := tt) by (cbv beta; now rewrite B).
  erewrite bind_ok by (through ltac:(eapply call_step; exact G)).
  erewrite bind_ok by (through ltac:(exact F)).
  erewrite bind_ok by (through ltac:(eapply call_step; exact P)).
  erewrite bind_ok by (eapply confirmation_block; [reflexivity | exact K]).
  cbn [session_file host launched]. unfold bind, ret, raise.
  now destruct (saveCookies _) as [st5 [[] | x]].
Qed.

(** C8.  With a browser, the profile loaded, the connect action located and
    clicked: when the wait for "Send now" expires, Connect goes on, and once
    the browser hands over its cookies and the snapshot file is written it
    answers "Connection request sent"; the same holds when the button was
    found and pressed, whatever the press did.  Every other step is
    required: when the navigation, the locator, the click on the connect
    action, the cookie query, the opening of the snapshot file or the dump
    raises, the whole operation fails with its 400. *)
Theorem sendConnect_optional_confirmation request (st : St H W) d :
  browser st = Some d ->
  let link := cp_profileLink request in
  let failed := Raise (HTTPException 400 "Couldn't send connection request") in
  (forall w1 d2 connect_button w3 w4 x w5 cookies h1 h2,
     get link (proc d) = (w1, Ok tt) ->
     findConnectBtn (mkDriver w1 (log d ++ [EvGet link])) = (d2, Ok connect_button) ->
     move_click_perform connect_button (proc d2) = (w3, Ok tt) ->
     wait_presence XPATH send_now 5 w3 = (w4, Raise x) ->
     get_cookies w4 = (w5, Ok cookies) ->
     open_write (host st) = (h1, Ok tt) ->
     json_dump cookies h1 = (h2, Ok tt) ->
     sendConnect request st
     = (mkSt (Some (mkDriver w5 (log d2 ++ [EvMoveClick connect_button;
                                            EvWait XPATH send_now 5;
                                            EvGetCookies])))
             (Some (Json cookies)) h2 (launched st),
        Ok (ok "Connection request sent"))) /\
  (forall w1 d2 connect_button w3 d4 w5 cookies h1 h2,
     get link (proc d) = (w1, Ok tt) ->
     findConnectBtn (mkDriver w1 (log d ++ [EvGet link])) = (d2, Ok connect_button) ->
     move_click_perform connect_button (proc d2) = (w3, Ok tt) ->
     confirmation (mkDriver w3 (log d2 ++ [EvMoveClick connect_button])) d4 ->
     get_cookies (proc d4) = (w5, Ok cookies) ->
     open_write (host st) = (h1, Ok tt) ->
     json_dump cookies h1 = (h2, Ok tt) ->
     sendConnect request st
     = (mkSt (Some (mkDriver w5 (log d4 ++ [EvGetCookies])))
             (Some (Json cookies)) h2 (launched st),
        Ok (ok "Connection request sent"))) /\
  (forall w1 x,
     get link (proc d) = (w1, Raise x) ->
     sendConnect request st
     = (mkSt (Some (mkDriver w1 (log d ++ [EvGet link])))
             (session_file st) (host st) (launched st), failed)) /\
  (forall w1 d2 x,
     get link (proc d) = (w1, Ok tt) ->
     findConnectBtn (mkDriver w1 (log d ++ [EvGet link])) = (d2, Raise x) ->
     sendConnect request st
     = (mkSt (Some d2) (session_file st) (host st) (launched st), failed)) /\
  (forall w1 d2 connect_button w3 x,
     get link (proc d) = (w1, Ok tt) ->
     findConnectBtn (mkDriver w1 (log d ++ [EvGet link])) = (d2, Ok connect_button) ->
     move_click_perform connect_button (proc d2) = (w3, Raise x) ->
     sendConnect request st
     = (mkSt (Some (mkDriver w3 (log d2 ++ [EvMoveClick connect_button])))
             (session_file st) (host st) (launched st), failed)) /\
  (forall w1 d2 connect_button w3 d4 w5 x,
     get link (proc d) = (w1, Ok tt) ->
     findConnectBtn (mkDriver w1 (log d ++ [EvGet link])) = (d2, Ok connect_button) ->
     move_click_perform connect_button (proc d2) = (w3, Ok tt) ->
     confirmation (mkDriver w3 (log d2 ++ [EvMoveClick connect_button])) d4 ->
     get_cookies (proc d4) = (w5, Raise x) ->
     sendConnect request st
     = (mkSt (Some (mkDriver w5 (log d4 ++ [EvGetCookies])))
             (session_file st) (host st) (launched st), failed)) /\
  (forall w1 d2 connect_button w3 d4 w5 cookies h1 x,
     get link (proc d) = (w1, Ok tt) ->
     findConnectBtn (mkDriver w1 (log d ++ [EvGet link])) = (d2, Ok connect_button) ->
     move_click_perform connect_button (proc d2) = (w3, Ok tt) ->
     confirmation (mkDriver w3 (log d2 ++ [EvMoveClick connect_button])) d4 ->
     get_cookies (proc d4) = (w5, Ok cookies) ->
     open_write (host st) = (h1, Raise x) ->
     sendConnect request st
     = (mkSt (Some (mkDriver w5 (log d4 ++ [EvGetCookies])))
             (session_file st) h1 (launched st), failed)) /\
  (forall w1 d2 connect_button w3 d4 w5 cookies h1 h2 x,
     get link (proc d) = (w1, Ok tt) ->
     findConnectBtn (mkDriver w1 (log d ++ [EvGet link])) = (d2, Ok connect_button) ->
     move_click_perform connect_button (proc d2) = (w3, Ok tt) ->
     confirmation (mkDriver w3 (log d2 ++ [EvMoveClick connect_button])) d4 ->
     get_cookies (proc d4) = (w5, Ok cookies) ->
     open_write (host st) = (h1, Ok tt) ->
     json_dump cookies h1 = (h2, Raise x) ->
     sendConnect request st
     = (mkSt (Some (mkDriver w5 (log d4 ++ [EvGetCookies])))
             (Some Malformed) h2 (launched st), failed)).
Proof.
  intros B link failed. subst link failed.
  assert (Saved : forall w1 d2 connect_button w3 d4 w5 cookies h1 h2,
     get (cp_profileLink request) (proc d) = (w1, Ok tt) ->
     findConnectBtn (mkDriver w1 (log d ++ [EvGet (cp_profileLink request)]))
     = (d2, Ok connect_button) ->
     move_click_perform connect_button (proc d2) = (w3, Ok tt) ->
     confirmation (mkDriver w3 (log d2 ++ [EvMoveClick connect_button])) d4 ->
     get_cookies (proc d4) = (w5, Ok cookies) ->
     open_write (host st) = (h1, Ok tt) ->
     json_dump cookies h1 = (h2, Ok tt) ->
     sendConnect request st
     = (mkSt (Some (mkDriver w5 (log d4 ++ [EvGetCookies])))
             (Some (Json cookies)) h2 (launched st),
        Ok (ok "Connection request sent"))).
  { intros w1 d2 btn w3 d4 w5 cookies h1 h2 G F P K C O D.
    rewrite (sendConnect_to_save _ _ B G F P K).
    now rewrite (saveCookies_step (mkSt (Some d4) _ _ _) eq_refl C O D). }
  split; [|split; [exact Saved|]].
  - intros w1 d2 btn w3 w4 x w5 cookies h1 h2 G F P E C O D.
    rewrite (Saved w1 d2 btn w3
               (mkDriver w4 ((log d2 ++ [EvMoveClick btn]) ++ [EvWait XPATH send_now 5]))
               w5 cookies h1 h2 G F P
               ltac:(eapply not_shown; [exact E | reflexivity]) C O D).
    cbn [log]. now rewrite <- !app_assoc.
  - repeat split.
    + intros w1 x G. unfold sendConnect.
      erewrite catch_raise; [reflexivity|].
      erewrite bind_ok with (s' := st) (a := tt) by (cbv beta; now rewrite B).
      erewrite bind_raise by (through ltac:(eapply call_step; exact G)).
      reflexivity.
    + intros w1 d2 x G F. unfold sendConnect.
      erewrite catch_raise; [reflexivity|].
      erewrite bind_ok with (s' := st) (a := tt) by (cbv beta; now rewrite B).
      erewrite bind_ok by (through ltac:(eapply call_step; exact G)).
      erewrite bind_raise by (through ltac:(exact F)).
      reflexivity.
    + intros w1 d2 btn w3 x G F P. unfold sendConnect.
      erewrite catch_raise; [reflexivity|].
      erewrite bind_ok with (s' := st) (a := tt) by (cbv beta; now rewrite B).
      erewrite bind_ok by (through ltac:(eapply call_step; exact G)).
      erewrite bind_ok by (through ltac:(exact F)).
      erewrite bind_raise by (through ltac:(eapply call_step; exact P)).
      reflexivity.
    + intros w1 d2 btn w3 d4 w5 x G F P K C.
      rewrite (sendConnect_to_save _ _ B G F P K).
      now rewrite (saveCookies_no_cookies (mkSt (Some d4) _ _ _) eq_refl C).
    + intros w1 d2 btn w3 d4 w5 cookies h1 x G F P K C O.
      rewrite (sendConnect_to_save _ _ B G F P K).
      now rewrite (saveCookies_refused (mkSt (Some d4) _ _ _) eq_refl C O).
    + intros w1 d2 btn w3 d4 w5 cookies h1 h2 x G F P K C O D.
      rewrite (sendConnect_to_save _ _ B G F P K).
      now rewrite (saveCookies_torn (mkSt (Some d4) _ _ _) eq_refl C O D).
Qed.

(** *** Probe-and-Message *)

(** C7.  With a browser and the profile loaded, when the probe answers
    [False] the operation answers "Not connected yet"; the browser was sent
    the navigation and the three indicator waits and nothing else (no click,
    no typing, no connect), and snapshot file, host and launch count are
    untouched. *)
Theorem checkAndMessage_not_connected request (st : St H W) d w1 d2 :
  browser st = Some d ->
  get (profileLink request) (proc d) = (w1, Ok tt) ->
  checkIfConnected (mkDriver w1 (log d ++ [EvGet (profileLink request)]))
  = (d2, Ok false) ->
  checkAndMessage request st
  = (mkSt (Some d2) (session_file st) (host st) (launched st),
     Ok (ok "Not connected yet")) /\
  log d2 = log d ++ [EvGet (profileLink request);
                     EvWait XPATH first_degree_label 5;
                     EvWait XPATH message_action 5;
                     EvWait XPATH connection_badge 5].
Proof.
  intros B G C. split.
  - unfold checkAndMessage.
    erewrite catch_ok; [reflexivity|].
    erewrite bind_ok with (s' := st) (a := tt) by (cbv beta; now rewrite B).
    erewrite bind_ok by (through ltac:(eapply call_step; exact G)).
    erewrite bind_ok by (through ltac:(exact C)).
    reflexivity.
  - rewrite (checkIfConnected_false_log _ C). cbn [log].
    now rewrite <- app_assoc.
Qed.

(** C10.  Without a browser, Connect and Probe-and-Message fail with their
    generic 400 detail: the precondition's own exception, raised inside the
    [try], is caught by [except Exception] and replaced.  Nothing else
    happens. *)
Theorem no_session_generic_failure (st : St H W) request_c request_m :
  browser st = None ->
  sendConnect request_c st
  = (st, Raise (HTTPException 400 "Couldn't send connection request")) /\
  checkAndMessage request_m st
  = (st, Raise (HTTPException 400 "Something went wrong with messaging")) /\
  HTTPException 400 "Couldn't send connection request"
  <> HTTPException 400 "Need to login first!" /\
  HTTPException 400 "Something went wrong with messaging"
  <> HTTPException 400 "Login required!".
Proof.
  intros B. repeat split; try discriminate.
  - unfold sendConnect, catch, bind, raise. now rewrite B.
  - unfold checkAndMessage, catch, bind, raise. now rewrite B.
Qed.

(** *** Close *)

(** C9, as the code has it.  Without a browser Close answers "Browser
    session closed" and changes nothing, the snapshot file included.  With
    a browser whose [quit()] raises, Close fails with its 500 and keeps
    handle and file.  With a browser whose [quit()] returns the handle is
    dropped; then, when there is no snapshot file or [os.remove] returns,
    no file is left and the answer is "Browser session closed", and when
    [os.remove] raises the file stays and Close fails with its 500. *)
Theorem closeBrowser_outcomes (st : St H W) :
  (browser st = None ->
   closeBrowser st = (st, Ok (ok "Browser session closed"))) /\
  (forall d w' x, browser st = Some d ->
     quit (proc d) = (w', Raise x) ->
     closeBrowser st
     = (mkSt (Some (mkDriver w' (log d ++ [EvQuit]))) (session_file st)
             (host st) (launched st),
        Raise (HTTPException 500 "Couldn't close the browser"))) /\
  (forall d w', browser st = Some d ->
     quit (proc d) = (w', Ok tt) ->
     session_file st = None ->
     closeBrowser st
     = (mkSt None None (host st) (launched st), Ok (ok "Browser session closed"))) /\
  (forall d w' content h1, browser st = Some d ->
     quit (proc d) = (w', Ok tt) ->
     session_file st = Some content ->
     os_remove (host st) = (h1, Ok tt) ->
     closeBrowser st
     = (mkSt None None h1 (launched st), Ok (ok "Browser session closed"))) /\
  (forall d w' content h1 x, browser st = Some d ->
     quit (proc d) = (w', Ok tt) ->
     session_file st = Some content ->
     os_remove (host st) = (h1, Raise x) ->
     closeBrowser st
     = (mkSt None (session_file st) h1 (launched st),
        Raise (HTTPException 500 "Couldn't close the browser"))).
Proof.
  repeat split.
  - intros B. unfold closeBrowser, shutdown, catch, bind, ret. now rewrite B.
  - intros d w' x B Q.
    unfold closeBrowser, shutdown, catch, bind, ret, on_browser, call, raise.
    now rewrite B, Q.
  - intros d w' B Q F.
    unfold closeBrowser, shutdown, catch, bind, ret, on_browser, call,
      forget_browser.
    rewrite B, Q. cbn. now rewrite F.
  - intros d w' content h1 B Q F R.
    unfold closeBrowser, shutdown, catch, bind, ret, on_browser, call,
      forget_browser, remove_session_file.
    rewrite B, Q. cbn. now rewrite F, R.
  - intros d w' content h1 x B Q F R.
    unfold closeBrowser, shutdown, catch, bind, ret, raise, on_browser, call,
      forget_browser, remove_session_file.
    rewrite B, Q. cbn. now rewrite F, R.
Qed.

End Workflow.

(** ** Runs on the scripted browser *)

Module Scenarios.

Import Toy.
Import Site.

(** *** Locator *)

(** Two strategies are satisfiable at once (the second and the third); the
    first matches a hidden button.  The second wins. *)
Lemma findConnectBtn_highest_priority_witness :
  snd (try_selectors possible_selectors (fresh two_buttons)) = Ok (Some 8) /\
  snd (findConnectBtn (fresh two_buttons)) = Ok 8.
Proof.
  pose proof (@findConnectBtn_highest_priority _ _ scripted
                (fun w => w = two_buttons)
                (fun s => lookup XPATH s (dom two_buttons))
                (fun e => negb (existsb (Nat.eqb e) (hidden two_buttons)))
                possible_selectors
                ["//button[contains(@aria-label, 'Invite') and contains(@aria-label, 'to connect')]"]
                "//button[contains(text(), 'Connect')]"
                ["//button[contains(@class, 'connect-button')]"]
                8 (fresh two_buttons)) as T.
  destruct T as [T1 T2].
  - split.
    + intros w s ->. split; [reflexivity|].
      change (snd (wait_presence XPATH s 10 two_buttons))
        with (match lookup XPATH s (dom two_buttons) with
              | Some e => Ok e
              | None => Raise timeout_error
              end).
      now destruct (lookup XPATH s (dom two_buttons)).
    + intros w e ->. now split.
  - reflexivity.
  - reflexivity.
  - intros s' e' [<- | []] F. vm_compute in F. now inversion F.
  - reflexivity.
  - reflexivity.
  - split; [exact T1 | exact (T2 eq_refl)].
Defined.

Lemma findConnectBtn_direct_match_visible_witness :
  exists s w2 w3,
    In s possible_selectors /\
    wait_presence XPATH s 10 w2 = (w3, Ok 8) /\
    is_displayed 8 w3 = (two_buttons, Ok true).
Proof.
  assert (R : findConnectBtn (fresh two_buttons)
              = (fst (findConnectBtn (fresh two_buttons)), Ok 8)) by reflexivity.
  destruct (@findConnectBtn_direct_match_visible _ _ scripted _ _ _ R)
    as [[(pre & s & post & d1 & w2 & Q & _ & E1 & E2) | (d1 & w & N & _)] _].
  - exists s, (proc d1), w2. repeat split; try assumption.
    rewrite Q. apply in_elt.
  - vm_compute in N. discriminate.
Defined.

(** The hidden first match is looked at once and given up. *)
Example hidden_match_abandoned :
  log (fst (findConnectBtn (fresh two_buttons)))
  = [ EvWait XPATH "//button[contains(@aria-label, 'Invite') and contains(@aria-label, 'to connect')]" 10;
      EvIsDisplayed 7;
      EvWait XPATH "//button[contains(text(), 'Connect')]" 10;
      EvIsDisplayed 8 ].
Proof. reflexivity. Qed.

(** The claim that every returned element is visible fails on the menu
    path and in [waitForElement]: both hand back an element the browser
    reports as not displayed. *)
Lemma locator_returns_hidden_element :
  snd (findConnectBtn (fresh (menu_only true))) = Ok 2 /\
  snd (is_displayed 2 (proc (fst (findConnectBtn (fresh (menu_only true))))))
  = Ok false /\
  snd (waitForElement XPATH
         "//button[contains(@aria-label, 'Invite') and contains(@aria-label, 'to connect')]"
         10 (fresh two_buttons)) = Ok 7 /\
  snd (is_displayed 7 two_buttons) = Ok false.
Proof. repeat split. Qed.

(** Scenario C at the locator: the connect action is only in the menu. *)
Lemma findConnectBtn_menu_fallback_witness :
  findConnectBtn (fresh (menu_only false))
  = (mkDriver (fst (press 1 (menu_only false)))
       [ EvWait XPATH "//button[contains(@aria-label, 'Invite') and contains(@aria-label, 'to connect')]" 10;
         EvWait XPATH "//button[contains(text(), 'Connect')]" 10;
         EvWait XPATH "//button[contains(@class, 'connect-button')]" 10;
         EvWait XPATH more_actions 10;
         EvClick 1;
         EvWait XPATH dropdown_connect 10 ],
     Ok 2).
Proof.
  apply (proj1 (@findConnectBtn_menu_fallback _ _ scripted (fresh (menu_only false)))
           (mkDriver (menu_only false)
              [ EvWait XPATH "//button[contains(@aria-label, 'Invite') and contains(@aria-label, 'to connect')]" 10;
                EvWait XPATH "//button[contains(text(), 'Connect')]" 10;
                EvWait XPATH "//button[contains(@class, 'connect-button')]" 10 ])
           (menu_only false) 1 (fst (press 1 (menu_only false)))
           (fst (press 1 (menu_only false))) 2);
    reflexivity.
Defined.

(** Scenario C end to end. *)
Example connect_through_menu :
  snd (sendConnect (mkConnect "https://www.linkedin.com/in/someone")
                   (running (menu_only false) None))
  = Ok (ok "Connection request sent").
Proof. reflexivity. Qed.

(** No connect action anywhere: the locator's 404 becomes Connect's 400. *)
Example connect_not_found :
  snd (findConnectBtn (fresh blank))
  = Raise (HTTPException 404 "Connect button not found") /\
  snd (sendConnect (mkConnect "https://www.linkedin.com/in/someone")
                   (running blank None))
  = Raise (HTTPException 400 "Couldn't send connection request").
Proof. split; reflexivity. Qed.

(** *** Probe *)

Example probe_connected :
  checkIfConnected (fresh connected_profile)
  = (mkDriver connected_profile
       [EvWait XPATH first_degree_label 5; EvWait XPATH message_action 5],
     Ok true).
Proof. reflexivity. Qed.

Example probe_not_connected :
  checkIfConnected (fresh blank)
  = (mkDriver blank
       [EvWait XPATH first_degree_label 5; EvWait XPATH message_action 5;
        EvWait XPATH connection_badge 5],
     Ok false).
Proof. reflexivity. Qed.

(** *** Start and Login *)

(** [startBrowser] with a handle in place is no no-op: it launches the next
    browser the host has, and the manager's handle is the new one.  Two
    starts in a row launch two processes. *)
Lemma startBrowser_launches_again :
  startBrowser (mkSt (Some (fresh signed_in)) None [blank] 1)
  = (mkSt (Some (mkDriver blank [EvCdp])) None [] 2, Ok tt) /\
  launched (fst (startBrowser (fst (startBrowser (stopped None [blank; blank]))))) = 2.
Proof. repeat split. Qed.

Lemma doLogin_launches_at_most_once_witness :
  launched (fst (doLogin creds (running signed_in None))) = 1 /\
  browser (fst (doLogin creds (running signed_in None))) <> None /\
  launched (fst (doLogin creds (fst (doLogin creds (stopped None [signed_in; blank])))))
  <= 1.
Proof.
  destruct (@doLogin_launches_at_most_once _ _ scripted creds creds
              (running signed_in None)) as (_ & K & _).
  destruct (K ltac:(discriminate)) as [L B].
  destruct (@doLogin_launches_at_most_once _ _ scripted creds creds
              (stopped None [signed_in; blank])) as (_ & _ & A).
  repeat split; assumption.
Defined.

(** Two Logins on a stopped service with two browsers on offer: one launch. *)
Example login_twice :
  launched (fst (doLogin creds (fst (doLogin creds (stopped None [signed_in; blank])))))
  = 1.
Proof. reflexivity. Qed.

(** Scenario B: a snapshot on disk, the login page lands on the feed. *)
Lemma doLogin_already_logged_in_witness :
  doLogin creds (stopped (Some [session_cookie]) [signed_in])
  = (mkSt (Some (mkDriver
                   (with_jar (with_url signed_in "https://www.linkedin.com/feed/")
                             [session_cookie])
                   [EvCdp; EvGet login_url; EvAddCookie session_cookie; EvCurrentUrl]))
          (Some (Json [session_cookie])) [] 1,
     Ok (ok "Already logged in")).
Proof.
  apply (@doLogin_already_logged_in _ _ scripted creds
           (stopped (Some [session_cookie]) [signed_in])
           (mkSt (Some (mkDriver signed_in [EvCdp])) (Some (Json [session_cookie])) [] 1)
           (mkSt (Some (mkDriver
                          (with_jar (with_url signed_in "https://www.linkedin.com/feed/")
                                    [session_cookie])
                          [EvCdp; EvGet login_url; EvAddCookie session_cookie]))
                 (Some (Json [session_cookie])) [] 1)
           (mkDriver signed_in [EvCdp])
           (with_url signed_in "https://www.linkedin.com/feed/")
           (mkDriver
              (with_jar (with_url signed_in "https://www.linkedin.com/feed/")
                        [session_cookie])
              [EvCdp; EvGet login_url; EvAddCookie session_cookie])
           (with_jar (with_url signed_in "https://www.linkedin.com/feed/")
                     [session_cookie])
           "https://www.linkedin.com/feed/");
    reflexivity.
Defined.

(** Scenario A: no snapshot, the form is filled and submitted but the toy
    page never reaches the feed, so Login fails with its one message. *)
Example login_form_timeout :
  snd (doLogin creds (stopped None [blank]))
  = Raise (HTTPException 400 "Login didn't work, check credentials").
Proof. reflexivity. Qed.

(** *** Connect *)

Lemma sendConnect_optional_confirmation_witness :
  sendConnect (mkConnect "https://www.linkedin.com/in/someone")
              (running two_buttons None)
  = (mkSt (Some (mkDriver
                   (with_url two_buttons "https://www.linkedin.com/in/someone")
                   [ EvGet "https://www.linkedin.com/in/someone";
                     EvWait XPATH "//button[contains(@aria-label, 'Invite') and contains(@aria-label, 'to connect')]" 10;
                     EvIsDisplayed 7;
                     EvWait XPATH "//button[contains(text(), 'Connect')]" 10;
                     EvIsDisplayed 8;
                     EvMoveClick 8;
                     EvWait XPATH send_now 5;
                     EvGetCookies ]))
          (Some (Json [])) [] 1,
     Ok (ok "Connection request sent")) /\
  snd (sendConnect (mkConnect someone) (running blank None))
  = Raise (HTTPException 400 "Couldn't send connection request") /\
  (snd (sendConnect (mkConnect someone) (serving (jammed [8]) None None))
   = Raise (HTTPException 400 "Couldn't send connection request") /\
   session_file (fst (sendConnect (mkConnect someone) (serving (jammed [8]) None None)))
   = None) /\
  (snd (sendConnect (mkConnect someone)
          (serving (jammed [11]) (Some (Json [session_cookie])) (Some disk_full)))
   = Raise (HTTPException 400 "Couldn't send connection request") /\
   session_file (fst (sendConnect (mkConnect someone)
                        (serving (jammed [11]) (Some (Json [session_cookie]))
                                 (Some disk_full))))
   = Some Malformed).
Proof.
  split; [|split; [|split]].
  - pose proof (@sendConnect_optional_confirmation _ _ scripted
                  (mkConnect "https://www.linkedin.com/in/someone")
                  (running two_buttons None) (fresh two_buttons) eq_refl) as T.
    cbv zeta in T. destruct T as (T & _).
    apply (T (with_url two_buttons "https://www.linkedin.com/in/someone")
             (mkDriver
                (with_url two_buttons "https://www.linkedin.com/in/someone")
                [ EvGet "https://www.linkedin.com/in/someone";
                  EvWait XPATH "//button[contains(@aria-label, 'Invite') and contains(@aria-label, 'to connect')]" 10;
                  EvIsDisplayed 7;
                  EvWait XPATH "//button[contains(text(), 'Connect')]" 10;
                  EvIsDisplayed 8 ])
             8
             (with_url two_buttons "https://www.linkedin.com/in/someone")
             (with_url two_buttons "https://www.linkedin.com/in/someone")
             timeout_error
             (with_url two_buttons "https://www.linkedin.com/in/someone")
             [] [] []);
      reflexivity.
  - pose proof (@sendConnect_optional_confirmation _ _ scripted
                  (mkConnect someone) (running blank None) (fresh blank) eq_refl) as T.
    cbv zeta in T. destruct T as (_ & _ & _ & T & _).
    erewrite T; [reflexivity | reflexivity | reflexivity].
  - pose proof (@sendConnect_optional_confirmation _ _ navigating
                  (mkConnect someone) (serving (jammed [8]) None None)
                  (mkDriver (jammed [8]) []) eq_refl) as T.
    cbv zeta in T. destruct T as (_ & _ & _ & _ & T & _).
    erewrite T; [split; reflexivity | reflexivity | reflexivity | reflexivity].
  - pose proof (@sendConnect_optional_confirmation _ _ navigating
                  (mkConnect someone)
                  (serving (jammed [11]) (Some (Json [session_cookie])) (Some disk_full))
                  (mkDriver (jammed [11]) []) eq_refl) as T.
    cbv zeta in T. destruct T as (_ & _ & _ & _ & _ & _ & _ & T).
    erewrite T;
      [ split; reflexivity
      | reflexivity | reflexivity | reflexivity
      | eapply shown_and_pressed; reflexivity
      | reflexivity | reflexivity | reflexivity ].
Defined.

(** *** Probe-and-Message *)

(** Scenario D. *)
Lemma checkAndMessage_not_connected_witness :
  checkAndMessage (mkSend "https://www.linkedin.com/in/someone" "hello")
                  (running blank (Some [session_cookie]))
  = (mkSt (Some (mkDriver
                   (with_url blank "https://www.linkedin.com/in/someone")
                   [ EvGet "https://www.linkedin.com/in/someone";
                     EvWait XPATH first_degree_label 5;
                     EvWait XPATH message_action 5;
                     EvWait XPATH connection_badge 5 ]))
          (Some (Json [session_cookie])) [] 1,
     Ok (ok "Not connected yet")).
Proof.
  apply (@checkAndMessage_not_connected _ _ scripted
           (mkSend "https://www.linkedin.com/in/someone" "hello")
           (running blank (Some [session_cookie])) (fresh blank)
           (with_url blank "https://www.linkedin.com/in/someone")
           (mkDriver
              (with_url blank "https://www.linkedin.com/in/someone")
              [ EvGet "https://www.linkedin.com/in/someone";
                EvWait XPATH first_degree_label 5;
                EvWait XPATH message_action 5;
                EvWait XPATH connection_badge 5 ]));
    reflexivity.
Defined.

Example message_sent_when_connected :
  snd (checkAndMessage (mkSend "https://www.linkedin.com/in/someone" "hello")
         (running (mkPage "about:blank" []
                     [ (XPATH, message_action, 4);
                       (XPATH, message_textbox, 5);
                       (XPATH, send_button, 6) ] [] [] [] false) None))
  = Ok (ok "Message sent successfully").
Proof. reflexivity. Qed.

Lemma no_session_generic_failure_witness :
  sendConnect (mkConnect "https://www.linkedin.com/in/someone") (stopped None [blank])
  = (stopped None [blank],
     Raise (HTTPException 400 "Couldn't send connection request")) /\
  checkAndMessage (mkSend "https://www.linkedin.com/in/someone" "hello")
                  (stopped None [blank])
  = (stopped None [blank],
     Raise (HTTPException 400 "Something went wrong with messaging")).
Proof.
  destruct (@no_session_generic_failure _ _ scripted (stopped None [blank])
              (mkConnect "https://www.linkedin.com/in/someone")
              (mkSend "https://www.linkedin.com/in/someone" "hello") eq_refl)
    as (A & B & _).
  split; assumption.
Defined.

(** *** Close *)

(** A snapshot left by an earlier run survives Close when no browser is
    running: Close answers "Browser session closed" and the file is still
    there. *)
Lemma closeBrowser_keeps_snapshot_without_browser :
  closeBrowser (stopped (Some [session_cookie]) [blank])
  = (stopped (Some [session_cookie]) [blank], Ok (ok "Browser session closed")) /\
  session_file (fst (closeBrowser (stopped (Some [session_cookie]) [blank])))
  = Some (Json [session_cookie]).
Proof. split; reflexivity. Qed.

Lemma closeBrowser_outcomes_witness :
  closeBrowser (stopped (Some [session_cookie]) [blank])
  = (stopped (Some [session_cookie]) [blank], Ok (ok "Browser session closed")) /\
  closeBrowser (running (mkPage "about:blank" [] [] [] [] [] true)
                        (Some [session_cookie]))
  = (mkSt (Some (mkDriver (mkPage "about:blank" [] [] [] [] [] true) [EvQuit]))
          (Some (Json [session_cookie])) [] 1,
     Raise (HTTPException 500 "Couldn't close the browser")) /\
  closeBrowser (running blank None)
  = (mkSt None None [] 1, Ok (ok "Browser session closed")) /\
  closeBrowser (running blank (Some [session_cookie]))
  = (mkSt None None [] 1, Ok (ok "Browser session closed")) /\
  closeBrowser (serving no_cdp (Some (Json [session_cookie])) (Some undeletable))
  = (mkSt None (Some (Json [session_cookie])) (machine (Some undeletable)) 1,
     Raise (HTTPException 500 "Couldn't close the browser")).
Proof.
  destruct (@closeBrowser_outcomes _ _ scripted
              (stopped (Some [session_cookie]) [blank])) as (T1 & _).
  destruct (@closeBrowser_outcomes _ _ scripted
              (running (mkPage "about:blank" [] [] [] [] [] true)
                       (Some [session_cookie]))) as (_ & T2 & _).
  destruct (@closeBrowser_outcomes _ _ scripted (running blank None))
    as (_ & _ & T3 & _).
  destruct (@closeBrowser_outcomes _ _ scripted
              (running blank (Some [session_cookie]))) as (_ & _ & _ & T4 & _).
  destruct (@closeBrowser_outcomes _ _ navigating
              (serving no_cdp (Some (Json [session_cookie])) (Some undeletable)))
    as (_ & _ & _ & _ & T5).
  split; [exact (T1 eq_refl)|].
  split; [exact (T2 (fresh (mkPage "about:blank" [] [] [] [] [] true))
                    (mkPage "about:blank" [] [] [] [] [] true)
                    (LibError "quit") eq_refl eq_refl)|].
  split; [exact (T3 (fresh blank) blank eq_refl eq_refl eq_refl)|].
  split; [exact (T4 (fresh blank) blank (Json [session_cookie]) []
                    eq_refl eq_refl eq_refl eq_refl)|].
  exact (T5 (mkDriver no_cdp []) no_cdp (Json [session_cookie])
            (machine (Some undeletable)) (LibError "PermissionError")
            eq_refl eq_refl eq_refl eq_refl).
Defined.

End Scenarios.

(** ** More on Login *)

Section LoginPaths.

Context {H W : Type} `{Sel : Selenium H W}.

Ltac sent tac :=
  eapply on_browser_step; [first [eassumption | reflexivity] | tac].

Ltac command E := sent ltac:(eapply call_step; exact E).

Ltac awaited E := sent ltac:(eapply waitForElement_found; exact E).

(** X1.  The form path of Login.  With a browser there, the login page
    loaded, the snapshot injected and a current URL without "feed": when the
    two fields and the submit button are found, the fields are cleared, the
    e-mail goes into the username field and the password into the password
    field, the button is clicked, the URL reaches "feed" within the 15 s wait,
    the browser hands over its cookies and the snapshot file is opened and
    dumped without an error, Login answers "Logged in successfully", the
    snapshot file holds those cookies, and the commands sent are exactly
    these, in this order. *)
Theorem doLogin_fills_and_submits creds (st st1 st3 : St H W) d1 w2 d3 w4 url
    w5 user w6 w7 w8 pass w9 w10 w11 submit w12 w13 w14 cookies h1 h2 :
  match browser st with
  | Some _ => st1 = st
  | None => startBrowser st = (st1, Ok tt)
  end ->
  browser st1 = Some d1 ->
  get login_url (proc d1) = (w2, Ok tt) ->
  loadCookies (mkSt (Some (mkDriver w2 (log d1 ++ [EvGet login_url])))
                    (session_file st1) (host st1) (launched st1)) = (st3, Ok tt) ->
  browser st3 = Some d3 ->
  current_url (proc d3) = (w4, Ok url) ->
  contains "feed" url = false ->
  wait_presence ID "username" 10 w4 = (w5, Ok user) ->
  clear user w5 = (w6, Ok tt) ->
  send_keys user (email creds) w6 = (w7, Ok tt) ->
  wait_presence ID "password" 10 w7 = (w8, Ok pass) ->
  clear pass w8 = (w9, Ok tt) ->
  send_keys pass (passwd creds) w9 = (w10, Ok tt) ->
  wait_presence XPATH "//button[@type='submit']" 10 w10 = (w11, Ok submit) ->
  click submit w11 = (w12, Ok tt) ->
  wait_url_contains "feed" 15 w12 = (w13, Ok tt) ->
  get_cookies w13 = (w14, Ok cookies) ->
  open_write (host st3) = (h1, Ok tt) ->
  json_dump cookies h1 = (h2, Ok tt) ->
  doLogin creds st
  = (mkSt (Some (mkDriver w14
                   (log d3 ++ [ EvCurrentUrl;
                                EvWait ID "username" 10; EvClear user;
                                EvSendKeys user (email creds);
                                EvWait ID "password" 10; EvClear pass;
                                EvSendKeys pass (passwd creds);
                                EvWait XPATH "//button[@type='submit']" 10;
                                EvClick submit;
                                EvWaitUrl "feed" 15;
                                EvGetCookies ])))
          (Some (Json cookies)) h2 (launched st3),
     Ok (ok "Logged in successfully")).
Proof.
  intros S0 B1 G L B3 U C Wu Cu Su Wp Cp Sp Ws Cs Wf Gc Ow Jd.
  unfold doLogin.
  erewrite catch_ok; [reflexivity|].
  erewrite bind_ok with (s' := st1) (a := tt)
    by (cbv beta; destruct (browser st); [now subst | exact S0]).
  erewrite bind_ok by command G.
  erewrite bind_ok by exact L.
  erewrite bind_ok by command U.
  rewrite C.
  erewrite bind_ok by awaited Wu.
  erewrite bind_ok by command Cu.
  erewrite bind_ok by command Su.
  erewrite bind_ok by awaited Wp.
  erewrite bind_ok by command Cp.
  erewrite bind_ok by command Sp.
  erewrite bind_ok by awaited Ws.
  erewrite bind_ok by command Cs.
  erewrite bind_ok by command Wf.
  erewrite bind_ok
    by (eapply saveCookies_step; [reflexivity | exact Gc | exact Ow | exact Jd]).
  cbn [proc log ret session_file host launched].
  now rewrite <- !app_assoc.
Qed.

(** X2.  When there is no handle and the browser cannot be launched, Login
    fails with its own 400 "Login didn't work, check credentials": the 500
    "Couldn't start the browser!" that [startBrowser] raises is caught by
    Login's [except Exception].  No handle is set, nothing is counted as
    launched and the snapshot file is untouched. *)
Theorem doLogin_start_failure_masked creds (st : St H W) h' x :
  browser st = None ->
  uc_Chrome (host st) = (h', Raise x) ->
  startBrowser st
  = (mkSt None (session_file st) h' (launched st),
     Raise (HTTPException 500 "Couldn't start the browser!")) /\
  doLogin creds st
  = (mkSt None (session_file st) h' (launched st),
     Raise (HTTPException 400 "Login didn't work, check credentials")).
Proof.
  intros B E.
  assert (S0 : startBrowser st
               = (mkSt None (session_file st) h' (launched st),
                  Raise (HTTPException 500 "Couldn't start the browser!"))).
  { unfold startBrowser, catch, bind, launch, raise. now rewrite E, B. }
  split; [exact S0|].
  unfold doLogin.
  erewrite catch_raise; [reflexivity|].
  erewrite bind_raise; [reflexivity|].
  cbv beta. rewrite B. exact S0.
Qed.

(** X3.  When the browser is launched but the anti-detection script cannot
    be installed, [startBrowser] raises its 500 with the handle already
    set: Login fails with its 400 and leaves a running browser behind, and
    the next Login uses that browser without starting another one. *)
Theorem startBrowser_script_failure_keeps_handle creds creds' (st : St H W) h' w w' x :
  browser st = None ->
  uc_Chrome (host st) = (h', Ok w) ->
  execute_cdp_cmd w = (w', Raise x) ->
  startBrowser st
  = (mkSt (Some (mkDriver w' [EvCdp])) (session_file st) h' (S (launched st)),
     Raise (HTTPException 500 "Couldn't start the browser!")) /\
  doLogin creds st
  = (mkSt (Some (mkDriver w' [EvCdp])) (session_file st) h' (S (launched st)),
     Raise (HTTPException 400 "Login didn't work, check credentials")) /\
  launched (fst (doLogin creds' (fst (doLogin creds st)))) = S (launched st).
Proof.
  intros B E C.
  assert (S0 : startBrowser st
               = (mkSt (Some (mkDriver w' [EvCdp])) (session_file st) h'
                       (S (launched st)),
                  Raise (HTTPException 500 "Couldn't start the browser!"))).
  { unfold startBrowser, catch, bind, launch, raise, on_browser, call.
    rewrite E. cbn. now rewrite C. }
  assert (D : doLogin creds st
              = (mkSt (Some (mkDriver w' [EvCdp])) (session_file st) h'
                      (S (launched st)),
                 Raise (HTTPException 400 "Login didn't work, check credentials"))).
  { unfold doLogin.
    erewrite catch_raise; [reflexivity|].
    erewrite bind_raise; [reflexivity|].
    cbv beta. rewrite B. exact S0. }
  repeat split; [exact S0 | exact D |].
  rewrite D. cbn [fst].
  destruct (doLogin_handle creds'
              (mkSt (Some (mkDriver w' [EvCdp])) (session_file st) h'
                    (S (launched st)))) as [K _].
  destruct K as [L _]; [discriminate | exact L].
Qed.

(** X4.  The only exception an endpoint lets out is its own
    [HTTPException]: 400 with the endpoint's fixed detail for Login, Connect
    and Probe-and-Message, 500 for Close; and [startBrowser] lets out only
    its 500.  Whatever Selenium or a helper raised is replaced. *)
Theorem endpoints_raise_only_their_own (st st' : St H W) x :
  (forall creds, doLogin creds st = (st', Raise x) ->
     x = HTTPException 400 "Login didn't work, check credentials") /\
  (forall request, sendConnect request st = (st', Raise x) ->
     x = HTTPException 400 "Couldn't send connection request") /\
  (forall request, checkAndMessage request st = (st', Raise x) ->
     x = HTTPException 400 "Something went wrong with messaging") /\
  (closeBrowser st = (st', Raise x) ->
     x = HTTPException 500 "Couldn't close the browser") /\
  (startBrowser st = (st', Raise x) ->
     x = HTTPException 500 "Couldn't start the browser!").
Proof.
  repeat split; intros;
    match goal with
    | E : ?f = (st', Raise x) |- _ =>
        unfold doLogin, sendConnect, checkAndMessage, closeBrowser, startBrowser in E;
        unfold catch at 1 in E;
        match type of E with
        | (let (_, _) := ?body in _) = _ =>
            destruct body as [s0 [a | y]]; unfold raise in E;
            inversion E; reflexivity
        end
    end.
Qed.

End LoginPaths.

(** ** The snapshot file *)

Section Snapshot.

Context {H W : Type} `{Sel : Selenium H W}.

Lemma add_cookies_app pre post (st st1 : St H W) :
  add_cookies pre st = (st1, Ok tt) ->
  add_cookies (pre ++ post) st = add_cookies post st1.
Proof.
  revert st. induction pre as [|c pre IH]; intros st E.
  - cbn in E. now inversion E.
  - cbn [app add_cookies] in *. unfold bind in *.
    destruct (on_browser (call (EvAddCookie c) (add_cookie c)) st) as [s0 [[] | x]];
      [now apply IH | discriminate].
Qed.

Lemma read_session_file_ok (st : St H W) h1 cookies :
  read_file (host st) = (h1, Ok tt) ->
  session_file st = Some (Json cookies) ->
  read_session_file st
  = (mkSt (browser st) (session_file st) h1 (launched st), Ok cookies).
Proof. intros R F. unfold read_session_file. now rewrite R, F. Qed.

(** X6.  [loadCookies] gives up at the first cookie the browser refuses:
    once the file was read, the cookies before the refused one have been
    added, the ones after it are never sent, and the browser's exception
    comes out as it is.  The content of the file is not changed. *)
Theorem loadCookies_stops_at_refused_cookie (st st1 : St H W) d pre c post h1 d1 w x :
  session_file st = Some (Json (pre ++ c :: post)) ->
  browser st = Some d ->
  read_file (host st) = (h1, Ok tt) ->
  add_cookies pre (mkSt (browser st) (session_file st) h1 (launched st))
  = (st1, Ok tt) ->
  browser st1 = Some d1 ->
  add_cookie c (proc d1) = (w, Raise x) ->
  loadCookies st
  = (mkSt (Some (mkDriver w (log d1 ++ [EvAddCookie c])))
          (session_file st) h1 (launched st),
     Raise x) /\
  log d1 = log d ++ map EvAddCookie pre.
Proof.
  intros F B R P B1 A.
  destruct (add_cookies_done pre (mkSt (browser st) (session_file st) h1 (launched st))
              B P) as (d1' & B1' & Lg & F1 & H1 & N1).
  rewrite B1 in B1'. inversion B1'; subst d1'. split; [|exact Lg].
  cbn [session_file host launched] in F1, H1, N1.
  assert (LC : loadCookies st
               = (cookies <- read_session_file ;; add_cookies cookies) st)
    by (unfold loadCookies; now rewrite F, B).
  rewrite LC.
  erewrite bind_ok by (eapply read_session_file_ok; [exact R | exact F]).
  rewrite (add_cookies_app _ (c :: post) _ P). cbn [add_cookies].
  erewrite bind_raise
    by (eapply on_browser_step; [exact B1 | eapply call_step; exact A]).
  now rewrite F1, H1, N1.
Qed.

(** X7.  After a Close that returned on a running session there is no
    handle and no snapshot file; a second Close is a no-op that succeeds,
    and Connect and Probe-and-Message fail with their 400 and change
    nothing, until a Login starts a browser again. *)
Theorem closed_session_needs_login (st st1 : St H W) d r request_c request_m :
  browser st = Some d ->
  closeBrowser st = (st1, Ok r) ->
  browser st1 = None /\
  session_file st1 = None /\
  closeBrowser st1 = (st1, Ok (ok "Browser session closed")) /\
  sendConnect request_c st1
  = (st1, Raise (HTTPException 400 "Couldn't send connection request")) /\
  checkAndMessage request_m st1
  = (st1, Raise (HTTPException 400 "Something went wrong with messaging")).
Proof.
  intros B E.
  assert (Gone : browser st1 = None /\ session_file st1 = None).
  { revert E.
    unfold closeBrowser, shutdown, catch, bind, ret, raise, on_browser, call,
      forget_browser, remove_session_file.
    rewrite B.
    destruct (quit (proc d)) as [w' [[] | x]]; cbn; [|discriminate].
    destruct (session_file st) as [content|]; [|now inversion 1].
    destruct (os_remove (host st)) as [h1 [[] | x]]; [now inversion 1 | discriminate]. }
  destruct Gone as [B1 F1]. repeat split; try assumption.
  - unfold closeBrowser, shutdown, catch, bind, ret. now rewrite B1.
  - unfold sendConnect, catch, bind, raise. now rewrite B1.
  - unfold checkAndMessage, catch, bind, raise. now rewrite B1.
Qed.

(** *** Connect and Probe-and-Message, the other paths *)

Ltac sent tac :=
  eapply on_browser_step; [first [eassumption | reflexivity] | tac].

Ltac command E := sent ltac:(eapply call_step; exact E).

Ltac awaited E := sent ltac:(eapply waitForElement_found; exact E).

(** The inner [try] of Connect once the button is there: the click is
    sent, and its outcome is dropped. *)
Lemma confirmation_pressed (st0 : St H W) d0 w4 send_btn w5 clicked :
  browser st0 = Some d0 ->
  wait_presence XPATH send_now 5 (proc d0) = (w4, Ok send_btn) ->
  click send_btn w4 = (w5, clicked) ->
  catch (send_btn <- on_browser (waitForElement XPATH send_now 5) ;;
         on_browser (call (EvClick send_btn) (click send_btn)))
        (fun _ => ret tt) st0
  = (mkSt (Some (mkDriver w5 (log d0 ++ [EvWait XPATH send_now 5; EvClick send_btn])))
          (session_file st0) (host st0) (launched st0),
     Ok tt).
Proof.
  intros B E C. unfold catch, bind, ret.
  rewrite (on_browser_step _ _ B (waitForElement_found _ _ _ _ E)).
  rewrite (on_browser_step (call (EvClick send_btn) (click send_btn))
             (mkSt _ _ _ _) eq_refl (call_step _ _ (mkDriver w4 _) C)).
  cbn [proc log session_file host launched]. rewrite <- app_assoc.
  now destruct clicked as [[] | y].
Qed.

(** X8.  When the confirmation button does appear within its 5 s wait,
    Connect clicks it, and whatever that click does, return or raise, the
    operation goes on to save the cookies: once the browser hands them over
    and the snapshot file is written, the answer is "Connection request
    sent". *)
Theorem sendConnect_confirmation_clicked request (st : St H W) d w1 d2
    connect_button w3 w4 send_btn w5 clicked w6 cookies h1 h2 :
  browser st = Some d ->
  get (cp_profileLink request) (proc d) = (w1, Ok tt) ->
  findConnectBtn (mkDriver w1 (log d ++ [EvGet (cp_profileLink request)]))
  = (d2, Ok connect_button) ->
  move_click_perform connect_button (proc d2) = (w3, Ok tt) ->
  wait_presence XPATH send_now 5 w3 = (w4, Ok send_btn) ->
  click send_btn w4 = (w5, clicked) ->
  get_cookies w5 = (w6, Ok cookies) ->
  open_write (host st) = (h1, Ok tt) ->
  json_dump cookies h1 = (h2, Ok tt) ->
  sendConnect request st
  = (mkSt (Some (mkDriver w6 (log d2 ++ [ EvMoveClick connect_button;
                                          EvWait XPATH send_now 5;
                                          EvClick send_btn;
                                          EvGetCookies ])))
          (Some (Json cookies)) h2 (launched st),
     Ok (ok "Connection request sent")).
Proof.
  intros B G F P E C K O D.
  unfold sendConnect.
  erewrite catch_ok; [reflexivity|].
  erewrite bind_ok with (s' := st) (a := tt) by (cbv beta; now rewrite B).
  erewrite bind_ok by command G.
  erewrite bind_ok by sent ltac:(exact F).
  erewrite bind_ok by command P.
  erewrite bind_ok by (eapply confirmation_pressed; [reflexivity | exact E | exact C]).
  erewrite bind_ok
    by (eapply saveCookies_step; [reflexivity | exact K | exact O | exact D]).
  cbn [proc log ret session_file host launched].
  now rewrite <- !app_assoc.
Qed.

(** X9.  The sending path of Probe-and-Message.  When the probe answers
    [True], the Message button is found and clicked, the text box is found,
    the request's text is typed into it, and the Send button is found and
    clicked, the answer is "Message sent successfully"; the commands after
    the probe are exactly these, and the snapshot file is not written. *)
Theorem checkAndMessage_sends request (st : St H W) d w1 d2
    w3 message_btn w4 w5 message_box w6 w7 send_btn w8 :
  browser st = Some d ->
  get (profileLink request) (proc d) = (w1, Ok tt) ->
  checkIfConnected (mkDriver w1 (log d ++ [EvGet (profileLink request)]))
  = (d2, Ok true) ->
  wait_presence XPATH message_button 10 (proc d2) = (w3, Ok message_btn) ->
  move_click_perform message_btn w3 = (w4, Ok tt) ->
  wait_presence XPATH message_textbox 10 w4 = (w5, Ok message_box) ->
  send_keys message_box (messageText request) w5 = (w6, Ok tt) ->
  wait_presence XPATH send_button 10 w6 = (w7, Ok send_btn) ->
  click send_btn w7 = (w8, Ok tt) ->
  checkAndMessage request st
  = (mkSt (Some (mkDriver w8 (log d2 ++ [ EvWait XPATH message_button 10;
                                          EvMoveClick message_btn;
                                          EvWait XPATH message_textbox 10;
                                          EvSendKeys message_box (messageText request);
                                          EvWait XPATH send_button 10;
                                          EvClick send_btn ])))
          (session_file st) (host st) (launched st),
     Ok (ok "Message sent successfully")).
Proof.
  intros B G C Wm Pm Wb Sb Ws Cs.
  unfold checkAndMessage.
  erewrite catch_ok; [reflexivity|].
  erewrite bind_ok with (s' := st) (a := tt) by (cbv beta; now rewrite B).
  erewrite bind_ok by command G.
  erewrite bind_ok by sent ltac:(exact C).
  cbv iota.
  erewrite bind_ok by awaited Wm.
  erewrite bind_ok by command Pm.
  erewrite bind_ok by awaited Wb.
  erewrite bind_ok by command Sb.
  erewrite bind_ok by awaited Ws.
  erewrite bind_ok by command Cs.
  cbn [proc log ret session_file host launched].
  now rewrite <- !app_assoc.
Qed.

End Snapshot.

(** ** What the operations leave alone *)

Section Frames.

Context {H W : Type} `{Sel : Selenium H W}.

(** *** The snapshot file *)

Lemma leaves_disk_ret {A} (a : A) : leaves_disk (@ret (St H W) A a).
Proof. intros st. reflexivity. Qed.

Lemma leaves_disk_raise {A} x : leaves_disk (@raise (St H W) A x).
Proof. intros st. reflexivity. Qed.

Lemma leaves_disk_bind {A B} (m : M (St H W) A) (k : A -> M (St H W) B) :
  leaves_disk m -> (forall a, leaves_disk (k a)) -> leaves_disk (bind m k).
Proof.
  intros Lm Lk st. unfold bind. specialize (Lm st).
  destruct (m st) as [st1 [a | x]]; cbn in *; [|assumption].
  rewrite <- Lm. apply Lk.
Qed.

Lemma leaves_disk_catch {A} (m : M (St H W) A) (h : exn -> M (St H W) A) :
  leaves_disk m -> (forall x, leaves_disk (h x)) -> leaves_disk (catch m h).
Proof.
  intros Lm Lh st. unfold catch. specialize (Lm st).
  destruct (m st) as [st1 [a | x]]; cbn in *; [assumption|].
  rewrite <- Lm. apply Lh.
Qed.

Lemma leaves_disk_on_browser {A} (m : M (Driver W) A) :
  leaves_disk (H:=H) (W:=W) (on_browser m).
Proof.
  intros st. unfold on_browser. destruct (browser st); [|reflexivity].
  now destruct (m d).
Qed.

Lemma leaves_disk_startBrowser : leaves_disk (H:=H) (W:=W) startBrowser.
Proof.
  unfold startBrowser. apply leaves_disk_catch; [|intros; apply leaves_disk_raise].
  apply leaves_disk_bind; [|intros; apply leaves_disk_on_browser].
  intros st. unfold launch. now destruct (uc_Chrome (host st)) as [h' [w | x]].
Qed.

Lemma leaves_disk_add_cookies cookies :
  leaves_disk (H:=H) (W:=W) (add_cookies cookies).
Proof.
  induction cookies as [|c cs IH]; cbn [add_cookies].
  - apply leaves_disk_ret.
  - apply leaves_disk_bind; [apply leaves_disk_on_browser | intros _; exact IH].
Qed.

Lemma leaves_disk_read_session_file :
  leaves_disk (H:=H) (W:=W) read_session_file.
Proof.
  intros st. unfold read_session_file.
  now destruct (read_file (host st)) as [h1 [u | x]].
Qed.

Lemma leaves_disk_loadCookies : leaves_disk (H:=H) (W:=W) loadCookies.
Proof.
  intros st. unfold loadCookies.
  destruct (session_file st) as [content|] eqn:F; [|exact F].
  destruct (browser st); [|exact F].
  rewrite <- F.
  apply leaves_disk_bind;
    [apply leaves_disk_read_session_file | intros; apply leaves_disk_add_cookies].
Qed.

Lemma leaves_disk_login_guard :
  leaves_disk (fun st : St H W => match browser st with
                                  | None => startBrowser st
                                  | Some _ => (st, Ok tt)
                                  end).
Proof.
  intros st. cbv beta. destruct (browser st); [reflexivity|].
  apply leaves_disk_startBrowser.
Qed.

Lemma leaves_disk_session_guard x :
  leaves_disk (fun st : St H W => match browser st with
                                  | None => (st, Raise x)
                                  | Some _ => (st, Ok tt)
                                  end).
Proof. intros st. cbv beta. now destruct (browser st). Qed.

Ltac disk :=
  repeat first
    [ apply leaves_disk_ret | apply leaves_disk_raise
    | apply leaves_disk_on_browser | apply leaves_disk_loadCookies
    | apply leaves_disk_login_guard | apply leaves_disk_session_guard
    | apply leaves_disk_bind; [|intros]
    | apply leaves_disk_catch; [|intros]
    | match goal with |- leaves_disk (if ?c then _ else _) => destruct c end ].

Lemma fails_clean_of_leaves {A} (m : M (St H W) A) :
  leaves_disk m -> fails_clean m.
Proof. intros L st. specialize (L st). now destruct (snd (m st)). Qed.

Lemma fails_clean_then_ret {A B} (m : M (St H W) A) (b : B) :
  fails_clean m -> fails_clean (m ;;; ret b).
Proof.
  intros Fm st. unfold bind. specialize (Fm st).
  now destruct (m st) as [st1 [a | x]].
Qed.

Lemma fails_clean_reraise {A} (m : M (St H W) A) x :
  fails_clean m -> fails_clean (catch m (fun _ => raise x)).
Proof.
  intros Fm st. unfold catch. specialize (Fm st).
  now destruct (m st) as [st1 [a | y]].
Qed.

(** A Close that raises has kept the file: either [quit()] raised before
    the file was looked at, or [os.remove] raised and removed nothing. *)
Lemma fails_clean_shutdown : fails_clean (H:=H) (W:=W) shutdown.
Proof.
  intros st. unfold shutdown. destruct (browser st) as [d|] eqn:B; [|exact I].
  unfold bind, on_browser, call, forget_browser, remove_session_file. rewrite B.
  destruct (quit (proc d)) as [w' [[] | x]]; cbn; [|reflexivity].
  destruct (session_file st) as [content|] eqn:F; cbn; [|exact I].
  now destruct (os_remove (host st)) as [h1 [[] | x]].
Qed.

Lemma fails_torn_of_leaves {A} (m : M (St H W) A) :
  leaves_disk m -> fails_torn m.
Proof.
  intros L st. specialize (L st). destruct (snd (m st)); [exact I | now left].
Qed.

Lemma fails_torn_after {A B} (m : M (St H W) A) (k : A -> M (St H W) B) :
  leaves_disk m -> (forall a, fails_torn (k a)) -> fails_torn (bind m k).
Proof.
  intros Lm Fk st. unfold bind. specialize (Lm st).
  destruct (m st) as [st1 [a | x]]; cbn in *; [|now left].
  specialize (Fk a st1). destruct (k a st1) as [st2 [b | y]]; cbn in *;
    [exact I | rewrite <- Lm; exact Fk].
Qed.

Lemma fails_torn_then_ret {A B} (m : M (St H W) A) (b : B) :
  fails_torn m -> fails_torn (m ;;; ret b).
Proof.
  intros Fm st. unfold bind. specialize (Fm st).
  now destruct (m st) as [st1 [a | x]].
Qed.

Lemma fails_torn_reraise {A} (m : M (St H W) A) x :
  fails_torn m -> fails_torn (catch m (fun _ => raise x)).
Proof.
  intros Fm st. unfold catch. specialize (Fm st).
  now destruct (m st) as [st1 [a | y]].
Qed.

(** [saveCookies] raises with the file as it was (the browser kept its
    cookies, or [open] raised) or malformed (the dump broke off). *)
Lemma fails_torn_saveCookies : fails_torn (H:=H) (W:=W) saveCookies.
Proof.
  intros st. unfold saveCookies. destruct (browser st) as [d|] eqn:B; [|exact I].
  unfold bind, on_browser, call, write_session_file. rewrite B.
  destruct (get_cookies (proc d)) as [w' [cs | x]]; cbn; [|now left].
  destruct (open_write (host st)) as [h1 [u | x]]; cbn; [|now left].
  destruct (json_dump cs h1) as [h2 [u' | x]]; cbn; [exact I | now right].
Qed.

Ltac clean :=
  repeat first
    [ apply fails_clean_reraise
    | apply fails_clean_then_ret; apply fails_clean_shutdown
    | apply fails_clean_of_leaves; solve [disk] ].

Ltac torn :=
  repeat first
    [ apply fails_torn_reraise
    | apply fails_torn_then_ret; apply fails_torn_saveCookies
    | apply fails_torn_after; [solve [disk] | intros]
    | match goal with |- fails_torn (if ?c then _ else _) => destruct c end
    | apply fails_torn_of_leaves; solve [disk] ].

(** X10.  What a failed operation does to the snapshot file.  A Close that
    raises has left the file as it was.  A Login or a Connect that raises
    has left the file as it was, or malformed by its one write breaking
    off after the file was opened: it never leaves another cookie list and
    never removes the file.  Probe-and-Message never touches the file,
    whether it returns or raises. *)
Theorem failed_operation_and_snapshot (st st' : St H W) x :
  (forall creds, doLogin creds st = (st', Raise x) ->
     session_file st' = session_file st \/ session_file st' = Some Malformed) /\
  (forall request, sendConnect request st = (st', Raise x) ->
     session_file st' = session_file st \/ session_file st' = Some Malformed) /\
  (closeBrowser st = (st', Raise x) -> session_file st' = session_file st) /\
  (forall request r, checkAndMessage request st = (st', r) ->
     session_file st' = session_file st).
Proof.
  repeat split.
  - intros creds E.
    assert (F : fails_torn (H:=H) (W:=W) (doLogin creds)) by (unfold doLogin; torn).
    specialize (F st). now rewrite E in F.
  - intros request E.
    assert (F : fails_torn (H:=H) (W:=W) (sendConnect request))
      by (unfold sendConnect; torn).
    specialize (F st). now rewrite E in F.
  - intros E.
    assert (F : fails_clean (H:=H) (W:=W) closeBrowser) by (unfold closeBrowser; clean).
    specialize (F st). now rewrite E in F.
  - intros request r E.
    assert (L : leaves_disk (H:=H) (W:=W) (checkAndMessage request))
      by (unfold checkAndMessage; disk).
    specialize (L st). now rewrite E in L.
Qed.

(** *** The handle *)

Lemma keeps_session_guard x :
  keeps (fun st : St H W => match browser st with
                            | None => (st, Raise x)
                            | Some _ => (st, Ok tt)
                            end).
Proof. intros st. cbv beta. destruct (browser st); apply same_handle_refl. Qed.

Ltac handle :=
  repeat first
    [ apply keeps_ret | apply keeps_raise | apply keeps_on_browser
    | apply keeps_saveCookies | apply keeps_session_guard
    | apply keeps_bind; [|intros]
    | apply keeps_catch; [|intros]
    | match goal with |- keeps (if ?c then _ else _) => destruct c end ].

(** X11.  Connect and Probe-and-Message never start a browser and never
    drop the handle: after either, returned or raised, the launch count is
    what it was and there is a handle exactly when there was one.  Close
    never starts a browser, and when it returns there is no handle. *)
Theorem only_login_starts_only_close_stops (st : St H W) :
  (forall request,
     launched (fst (sendConnect request st)) = launched st /\
     (browser (fst (sendConnect request st)) = None <-> browser st = None)) /\
  (forall request,
     launched (fst (checkAndMessage request st)) = launched st /\
     (browser (fst (checkAndMessage request st)) = None <-> browser st = None)) /\
  launched (fst (closeBrowser st)) = launched st /\
  (forall st' r, closeBrowser st = (st', Ok r) -> browser st' = None).
Proof.
  split; [|split; [|split]].
  - intros request.
    assert (K : keeps (H:=H) (W:=W) (sendConnect request))
      by (unfold sendConnect; handle).
    exact (K st).
  - intros request.
    assert (K : keeps (H:=H) (W:=W) (checkAndMessage request))
      by (unfold checkAndMessage; handle).
    exact (K st).
  - unfold closeBrowser, shutdown, catch, bind, ret, raise, on_browser, call,
      forget_browser, remove_session_file.
    destruct (browser st) as [d|]; [|reflexivity].
    destruct (quit (proc d)) as [w' [[] | x]]; cbn; [|reflexivity].
    destruct (session_file st); [|reflexivity].
    now destruct (os_remove (host st)) as [h1 [[] | x]].
  - intros st' r.
    unfold closeBrowser, shutdown, catch, bind, ret, raise, on_browser, call,
      forget_browser, remove_session_file.
    destruct (browser st) as [d|] eqn:B; [|now inversion 1; subst].
    destruct (quit (proc d)) as [w' [[] | x]]; cbn; [|discriminate].
    destruct (session_file st); [|now inversion 1].
    destruct (os_remove (host st)) as [h1 [[] | x]]; [now inversion 1 | discriminate].
Qed.

End Frames.

(** ** What the locator does to the page, and how long operations wait *)

Section Budget.

Context {H W : Type} `{Sel : Selenium H W}.

(** *** The direct strategies only look *)

Lemma try_selector_looks s (d : Driver W) :
  exists suffix,
    log (fst (try_selector s d)) = log d ++ suffix /\
    forallb observes suffix = true.
Proof.
  destruct (wait_presence XPATH s 10 (proc d)) as [w2 [e | x]] eqn:E1.
  - destruct (is_displayed e w2) as [w3 [[|] | y]] eqn:E2.
    + rewrite (try_selector_visible _ _ E1 E2). now eexists.
    + rewrite (try_selector_hidden _ _ E1 E2). now eexists.
    + exists [EvWait XPATH s 10; EvIsDisplayed e]. split; [|reflexivity].
      unfold try_selector, catch, bind.
      rewrite (waitForElement_found _ _ _ _ E1).
      unfold call; cbn [proc log]. rewrite E2. cbn. now rewrite <- app_assoc.
  - rewrite (try_selector_absent _ _ E1). now eexists.
Qed.

Lemma try_selectors_look sels (d : Driver W) :
  exists suffix,
    log (fst (try_selectors sels d)) = log d ++ suffix /\
    forallb observes suffix = true.
Proof.
  revert d. induction sels as [|s sels IH]; intros d.
  - exists []. now rewrite app_nil_r.
  - rewrite try_selectors_cons.
    destruct (try_selector_looks s d) as (l1 & L1 & O1).
    destruct (try_selector s d) as [d1 [[b|]|x]]; cbn [fst] in *;
      try (now exists l1).
    destruct (IH d1) as (l2 & L2 & O2).
    exists (l1 ++ l2). rewrite L2, L1, app_assoc. split; [reflexivity|].
    rewrite forallb_app. now rewrite O1, O2.
Qed.

(** X12.  The direct strategies only look at the page: whatever list of
    selectors the loop runs over, all it sends are presence waits and
    [is_displayed()] queries.  So when [findConnectBtn] returns a direct
    match it has clicked nothing; the one click it can make is the one on
    "More actions", after every direct strategy was given up. *)
Theorem direct_strategies_only_look (d : Driver W) :
  (forall sels, exists suffix,
     log (fst (try_selectors sels d)) = log d ++ suffix /\
     forallb observes suffix = true) /\
  (forall d1 e, try_selectors possible_selectors d = (d1, Ok (Some e)) ->
     exists suffix,
       findConnectBtn d = (mkDriver (proc d1) (log d ++ suffix), Ok e) /\
       forallb observes suffix = true).
Proof.
  split.
  - intros sels. apply try_selectors_look.
  - intros d1 e E.
    destruct (try_selectors_look possible_selectors d) as (l & L & O).
    rewrite E in L. cbn [fst] in L.
    exists l. split; [|exact O].
    rewrite (findConnectBtn_direct _ E), <- L. now destruct d1.
Qed.

(** *** Seconds of waiting *)

Lemma wait_seconds_app l l' :
  wait_seconds (l ++ l') = wait_seconds l + wait_seconds l'.
Proof.
  induction l as [|ev l IH]; [reflexivity|].
  cbn [app wait_seconds fold_right]. fold (wait_seconds (l ++ l')).
  fold (wait_seconds l). rewrite IH. destruct ev; lia.
Qed.

Lemma spends_weaken {A} n n' (m : M (Driver W) A) :
  spends n m -> n <= n' -> spends n' m.
Proof. intros S0 L d. specialize (S0 d). lia. Qed.

Lemma spends_ret {A} (a : A) : spends 0 (@ret (Driver W) A a).
Proof. intros d. unfold ret. cbn [fst]. lia. Qed.

Lemma spends_raise {A} x : spends 0 (@raise (Driver W) A x).
Proof. intros d. unfold raise. cbn [fst]. lia. Qed.

Lemma spends_pause seconds : spends (W:=W) 0 (pause seconds).
Proof. intros d. unfold pause. cbn [fst log]. lia. Qed.

Lemma spends_bind {A B} n k (m : M (Driver W) A) (f : A -> M (Driver W) B) :
  spends n m -> (forall a, spends k (f a)) -> spends (n + k) (bind m f).
Proof.
  intros Sm Sf d. unfold bind. specialize (Sm d).
  destruct (m d) as [d1 [a | x]]; cbn [fst] in *; [|lia].
  specialize (Sf a d1). lia.
Qed.

Lemma spends_catch {A} n k (m : M (Driver W) A) (h : exn -> M (Driver W) A) :
  spends n m -> (forall x, spends k (h x)) -> spends (n + k) (catch m h).
Proof.
  intros Sm Sh d. unfold catch. specialize (Sm d).
  destruct (m d) as [d1 [a | x]]; cbn [fst] in *; [lia|].
  specialize (Sh x d1). lia.
Qed.

Lemma spends_call {A} ev (op : M W A) :
  spends (wait_seconds [ev]) (call ev op).
Proof.
  intros d. unfold call. destruct (op (proc d)) as [w' r]. cbn [fst log].
  rewrite wait_seconds_app. lia.
Qed.

Lemma spends_call_quiet {A} ev (op : M W A) :
  wait_seconds [ev] = 0 -> spends 0 (call ev op).
Proof. intros Q. rewrite <- Q. apply spends_call. Qed.

Lemma spends_waitForElement by_ value timeout :
  spends (W:=W) timeout (waitForElement by_ value timeout).
Proof.
  unfold waitForElement.
  eapply spends_weaken;
    [apply spends_catch; [apply spends_call | intros; apply spends_raise]|].
  cbn. lia.
Qed.

Lemma spends_try_selector s : spends (W:=W) 10 (try_selector s).
Proof.
  unfold try_selector.
  eapply spends_weaken.
  - apply spends_catch; [|intros; apply spends_ret].
    apply spends_bind; [apply spends_waitForElement | intros button].
    apply spends_bind; [apply spends_call_quiet; reflexivity | intros shown].
    apply spends_ret.
  - lia.
Qed.

Lemma spends_try_selectors sels :
  spends (W:=W) (10 * length sels) (try_selectors sels).
Proof.
  induction sels as [|s sels IH]; cbn [try_selectors length].
  - eapply spends_weaken; [apply spends_ret | lia].
  - eapply spends_weaken.
    + apply spends_bind; [apply spends_try_selector | intros found].
      instantiate (1 := 10 * length sels).
      destruct found; [eapply spends_weaken; [apply spends_ret | lia] | exact IH].
    + lia.
Qed.

Lemma spends_menu_fallback : spends (W:=W) 20 menu_fallback.
Proof.
  unfold menu_fallback.
  eapply spends_weaken.
  - apply spends_catch; [|intros; apply spends_raise].
    apply spends_bind; [apply spends_waitForElement | intros more_btn].
    apply spends_bind; [apply spends_call_quiet; reflexivity | intros _].
    apply spends_bind; [apply spends_pause | intros _].
    apply spends_bind; [apply spends_waitForElement | intros c; apply spends_ret].
  - lia.
Qed.

Lemma spends_findConnectBtn : spends (W:=W) 50 findConnectBtn.
Proof.
  unfold findConnectBtn.
  eapply spends_weaken.
  - apply spends_bind; [apply (spends_try_selectors possible_selectors) | intros found].
    instantiate (1 := 20).
    destruct found; [eapply spends_weaken; [apply spends_ret | lia]
                    | apply spends_menu_fallback].
  - cbn. lia.
Qed.

Lemma spends_check_indicators inds :
  spends (W:=W) (5 * length inds) (check_indicators inds).
Proof.
  induction inds as [|i inds IH]; cbn [check_indicators length].
  - eapply spends_weaken; [apply spends_ret | lia].
  - eapply spends_weaken.
    + apply spends_catch; [|intros _; exact IH].
      apply spends_bind; [apply spends_waitForElement | intros; apply spends_ret].
    + lia.
Qed.

Lemma spends_checkIfConnected : spends (W:=W) 15 checkIfConnected.
Proof. exact (spends_check_indicators indicators). Qed.

(** X13.  The locator and the probe wait a bounded time: the timeouts of
    the waits [findConnectBtn] issues add up to at most 50 s (three direct
    strategies and two menu waits of 10 s; its one-second sleep comes on
    top), those of [checkIfConnected] to at most 15 s, and a loop over [n]
    selectors to at most [10 * n] s. *)
Theorem locator_and_probe_wait_bounded (d : Driver W) :
  wait_seconds (log (fst (findConnectBtn d))) <= wait_seconds (log d) + 50 /\
  wait_seconds (log (fst (checkIfConnected d))) <= wait_seconds (log d) + 15 /\
  (forall sels,
     wait_seconds (log (fst (try_selectors sels d)))
     <= wait_seconds (log d) + 10 * length sels).
Proof.
  split; [apply spends_findConnectBtn|].
  split; [apply spends_checkIfConnected|].
  intros sels. apply spends_try_selectors.
Qed.

End Budget.

(** ** How long the operations wait *)

Section EndpointBudget.

Context {H W : Type} `{Sel : Selenium H W}.

Lemma spends_st_weaken {A} n n' (m : M (St H W) A) :
  spends_st n m -> n <= n' -> spends_st n' m.
Proof. intros S0 L st. specialize (S0 st). lia. Qed.

Lemma spends_st_ret {A} (a : A) : spends_st 0 (@ret (St H W) A a).
Proof. intros st. unfold ret. cbn [fst]. lia. Qed.

Lemma spends_st_raise {A} x : spends_st 0 (@raise (St H W) A x).
Proof. intros st. unfold raise. cbn [fst]. lia. Qed.

Lemma spends_st_bind {A B} n k (m : M (St H W) A) (f : A -> M (St H W) B) :
  spends_st n m -> (forall a, spends_st k (f a)) -> spends_st (n + k) (bind m f).
Proof.
  intros Sm Sf st. unfold bind. specialize (Sm st).
  destruct (m st) as [st1 [a | x]]; cbn [fst] in *; [|lia].
  specialize (Sf a st1). lia.
Qed.

Lemma spends_st_catch {A} n k (m : M (St H W) A) (h : exn -> M (St H W) A) :
  spends_st n m -> (forall x, spends_st k (h x)) -> spends_st (n + k) (catch m h).
Proof.
  intros Sm Sh st. unfold catch. specialize (Sm st).
  destruct (m st) as [st1 [a | x]]; cbn [fst] in *; [lia|].
  specialize (Sh x st1). lia.
Qed.

Lemma spends_st_if {A} n k (c : bool) (a b : M (St H W) A) :
  spends_st n a -> spends_st k b -> spends_st (Nat.max n k) (if c then a else b).
Proof.
  intros Sa Sb. destruct c; [eapply spends_st_weaken; [exact Sa | lia]
                            | eapply spends_st_weaken; [exact Sb | lia]].
Qed.

Lemma spends_st_on_browser {A} n (m : M (Driver W) A) :
  spends n m -> spends_st (H:=H) n (on_browser m).
Proof.
  intros Sm st. unfold on_browser, waited.
  destruct (browser st) as [d|] eqn:B; cbn [fst]; [|rewrite B; lia].
  specialize (Sm d). destruct (m d) as [d' r]. cbn [fst browser] in *. exact Sm.
Qed.

Lemma spends_st_command {A} ev (op : M W A) :
  wait_seconds [ev] = 0 -> spends_st (H:=H) 0 (on_browser (call ev op)).
Proof. intros Q. apply spends_st_on_browser. now apply spends_call_quiet. Qed.

Lemma spends_st_waitForElement by_ value timeout :
  spends_st (H:=H) (W:=W) timeout (on_browser (waitForElement by_ value timeout)).
Proof. apply spends_st_on_browser, spends_waitForElement. Qed.

Lemma spends_st_wait_url s timeout (op : M W unit) :
  spends_st (H:=H) timeout (on_browser (call (EvWaitUrl s timeout) op)).
Proof.
  apply spends_st_on_browser.
  eapply spends_weaken; [apply spends_call | cbn; lia].
Qed.

Lemma spends_st_startBrowser : spends_st (H:=H) (W:=W) 0 startBrowser.
Proof.
  unfold startBrowser.
  eapply spends_st_weaken.
  - apply spends_st_catch; [|intros; apply spends_st_raise].
    apply spends_st_bind; [|intros; apply spends_st_command; reflexivity].
    instantiate (1 := 0).
    intros st. unfold launch, waited.
    destruct (uc_Chrome (host st)) as [h' [w | x]]; cbn; lia.
  - lia.
Qed.

Lemma spends_st_login_guard :
  spends_st 0 (fun st : St H W => match browser st with
                                  | None => startBrowser st
                                  | Some _ => (st, Ok tt)
                                  end).
Proof.
  intros st. cbv beta. destruct (browser st) eqn:B.
  - cbn [fst]. lia.
  - apply spends_st_startBrowser.
Qed.

Lemma spends_st_session_guard x :
  spends_st 0 (fun st : St H W => match browser st with
                                  | None => (st, Raise x)
                                  | Some _ => (st, Ok tt)
                                  end).
Proof. intros st. cbv beta. destruct (browser st); cbn [fst]; lia. Qed.

Lemma spends_st_saveCookies : spends_st (H:=H) (W:=W) 0 saveCookies.
Proof.
  intros st. unfold saveCookies, waited.
  destruct (browser st) as [d|] eqn:B; [|cbn [fst]; rewrite B; lia].
  unfold bind, on_browser, call, write_session_file. rewrite B.
  destruct (get_cookies (proc d)) as [w' [cs | x]]; cbn [fst host];
    [|cbn; rewrite wait_seconds_app; cbn; lia].
  destruct (open_write (host st)) as [h1 [u | x]];
    [destruct (json_dump cs h1) as [h2 [u' | x]]|];
    cbn; rewrite wait_seconds_app; cbn; lia.
Qed.

Lemma spends_st_add_cookies cookies :
  spends_st (H:=H) (W:=W) 0 (add_cookies cookies).
Proof.
  induction cookies as [|c cs IH]; cbn [add_cookies].
  - apply spends_st_ret.
  - eapply spends_st_weaken.
    + apply spends_st_bind; [apply spends_st_command; reflexivity | intros _; exact IH].
    + lia.
Qed.

Lemma spends_st_read_session_file :
  spends_st (H:=H) (W:=W) 0 read_session_file.
Proof.
  intros st. unfold read_session_file, waited.
  destruct (read_file (host st)) as [h1 [u | x]]; cbn; lia.
Qed.

Lemma spends_st_loadCookies : spends_st (H:=H) (W:=W) 0 loadCookies.
Proof.
  intros st. unfold loadCookies.
  destruct (session_file st); [|cbn [fst]; lia].
  destruct (browser st) eqn:B; [|cbn [fst]; lia].
  eapply spends_st_weaken;
    [apply spends_st_bind;
       [apply spends_st_read_session_file | intros; apply spends_st_add_cookies]
    | lia].
Qed.

Lemma spends_st_shutdown : spends_st (H:=H) (W:=W) 0 shutdown.
Proof.
  intros st. unfold shutdown, waited.
  destruct (browser st) as [d|] eqn:B; [|cbn [fst]; rewrite B; lia].
  unfold bind, on_browser, call, forget_browser, remove_session_file. rewrite B.
  destruct (quit (proc d)) as [w' [[] | x]]; cbn.
  - destruct (session_file st); cbn; [|lia].
    destruct (os_remove (host st)) as [h1 [[] | x]]; cbn; lia.
  - rewrite wait_seconds_app. cbn. lia.
Qed.

Ltac budget :=
  repeat first
    [ apply spends_st_ret | apply spends_st_raise
    | apply spends_st_login_guard | apply spends_st_session_guard
    | apply spends_st_saveCookies | apply spends_st_loadCookies
    | apply spends_st_shutdown
    | apply spends_st_waitForElement | apply spends_st_wait_url
    | apply spends_st_command; reflexivity
    | apply spends_st_on_browser; apply spends_findConnectBtn
    | apply spends_st_on_browser; apply spends_checkIfConnected
    | eapply spends_st_bind; [|intros]
    | eapply spends_st_catch; [|intros]
    | eapply spends_st_if ].

(** X14.  Every operation waits a bounded time.  Counting the timeouts of
    the waits on the log of the manager's handle, Login adds at most 45 s
    (three fields of 10 s and the 15 s wait for the feed), Connect at most
    55 s (the locator's 50 s and the 5 s for the confirmation),
    Probe-and-Message at most 45 s (the probe's 15 s and three controls of
    10 s), and Close none. *)
Theorem operations_wait_bounded (st : St H W) :
  (forall creds, waited (fst (doLogin creds st)) <= waited st + 45) /\
  (forall request, waited (fst (sendConnect request st)) <= waited st + 55) /\
  (forall request, waited (fst (checkAndMessage request st)) <= waited st + 45) /\
  waited (fst (closeBrowser st)) <= waited st.
Proof.
  repeat split.
  - intros creds.
    assert (S0 : spends_st (H:=H) (W:=W) 45 (doLogin creds)).
    { unfold doLogin. eapply spends_st_weaken; [budget | cbn; lia]. }
    exact (S0 st).
  - intros request.
    assert (S0 : spends_st (H:=H) (W:=W) 55 (sendConnect request)).
    { unfold sendConnect. eapply spends_st_weaken; [budget | cbn; lia]. }
    exact (S0 st).
  - intros request.
    assert (S0 : spends_st (H:=H) (W:=W) 45 (checkAndMessage request)).
    { unfold checkAndMessage. eapply spends_st_weaken; [budget | cbn; lia]. }
    exact (S0 st).
  - assert (S0 : spends_st (H:=H) (W:=W) 0 closeBrowser).
    { unfold closeBrowser. eapply spends_st_weaken; [budget | cbn; lia]. }
    specialize (S0 st). lia.
Qed.

End EndpointBudget.

(** ** The substring test of Login *)

Lemma prefix_append (a b : string) :
  String.prefix a b = true <-> exists post, b = (a ++ post)%string.
Proof.
  revert b. induction a as [|c a IH]; intros b.
  - split; [intros _; now exists b | intros _; now destruct b].
  - destruct b as [|c' b]; cbn [String.prefix].
    + split; [discriminate | intros [post E]; discriminate].
    + destruct (Ascii.ascii_dec c c') as [->|N].
      * rewrite IH. split; intros [post E]; exists post.
        -- cbn. now rewrite E.
        -- cbn in E. now inversion E.
      * split; [discriminate|]. intros [post E]. cbn in E. inversion E. congruence.
Qed.

Lemma contains_step (needle hay : string) :
  contains needle hay
  = if String.prefix needle hay then true
    else match hay with
         | EmptyString => false
         | String _ rest => contains needle rest
         end.
Proof. now destruct hay. Qed.

(** X15.  The test Login makes on the current URL, ["feed" in url], is a
    substring test: it holds exactly when the needle occurs somewhere in
    the URL, so any URL with "feed" in it counts as the authenticated
    area. *)
Theorem contains_substring (needle hay : string) :
  contains needle hay = true <->
  exists before after, hay = (before ++ needle ++ after)%string.
Proof.
  split.
  - induction hay as [|c hay IH]; rewrite contains_step;
      destruct (String.prefix needle _) eqn:P; try discriminate.
    + intros _. apply prefix_append in P as [post E]. now exists ""%string, post.
    + intros _. apply prefix_append in P as [post E]. now exists ""%string, post.
    + intros C. destruct (IH C) as (before & after & E).
      exists (String c before), after. cbn. now rewrite E.
  - intros (before & after & ->).
    induction before as [|c before IH]; rewrite contains_step.
    + cbn [String.append].
      assert (P : String.prefix needle (needle ++ after)%string = true)
        by (apply prefix_append; now exists after).
      now rewrite P.
    + cbn [String.append]. now destruct (String.prefix needle _).
Qed.

(** ** Connected, but no Message button *)

Section ProbeAndButton.

Context {H W : Type} `{Sel : Selenium H W}.

(** X16.  The probe and the messaging step look for different things: when
    the probe answers [True] (say through the first-degree label) but the
    Message button is not found within its 10 s wait, Probe-and-Message
    fails with its 400.  Nothing was clicked or typed, and the snapshot file
    is as it was. *)
Theorem checkAndMessage_connected_without_button request (st : St H W) d w1 d2 w3 x :
  browser st = Some d ->
  get (profileLink request) (proc d) = (w1, Ok tt) ->
  checkIfConnected (mkDriver w1 (log d ++ [EvGet (profileLink request)]))
  = (d2, Ok true) ->
  wait_presence XPATH message_button 10 (proc d2) = (w3, Raise x) ->
  checkAndMessage request st
  = (mkSt (Some (mkDriver w3 (log d2 ++ [EvWait XPATH message_button 10])))
          (session_file st) (host st) (launched st),
     Raise (HTTPException 400 "Something went wrong with messaging")).
Proof.
  intros B G C Wm.
  unfold checkAndMessage.
  erewrite catch_raise; [reflexivity|].
  erewrite bind_ok with (s' := st) (a := tt) by (cbv beta; now rewrite B).
  erewrite bind_ok
    by (eapply on_browser_step; [exact B | eapply call_step; exact G]).
  erewrite bind_ok by (eapply on_browser_step; [reflexivity | exact C]).
  cbv iota.
  erewrite bind_raise
    by (eapply on_browser_step;
        [reflexivity | eapply waitForElement_missing; exact Wm]).
  reflexivity.
Qed.

End ProbeAndButton.

(** ** More runs on the scripted browsers *)

Module Runs.

Import Toy.
Import Site.

(** Scenario A: nothing on disk, no browser; the form is filled and
    submitted, the feed is reached and the snapshot is written. *)
Lemma doLogin_fills_and_submits_witness :
  doLogin creds (mkSt None None (mkMachine [login_site] None) 0)
  = (mkSt (Some (mkDriver
                   (on_page login_site
                      (with_url login_form "https://www.linkedin.com/feed/"))
                   [ EvCdp; EvGet login_url; EvCurrentUrl;
                     EvWait ID "username" 10; EvClear 1; EvSendKeys 1 "a@x.com";
                     EvWait ID "password" 10; EvClear 2; EvSendKeys 2 "pw";
                     EvWait XPATH "//button[@type='submit']" 10; EvClick 3;
                     EvWaitUrl "feed" 15; EvGetCookies ]))
          (Some (Json [session_cookie])) (machine None) 1,
     Ok (ok "Logged in successfully")).
Proof.
  pose (at_login := on_page login_site (with_url login_form login_url)).
  pose (at_feed := on_page login_site
                     (with_url login_form "https://www.linkedin.com/feed/")).
  apply (@doLogin_fills_and_submits _ _ navigating creds
           (mkSt None None (mkMachine [login_site] None) 0)
           (mkSt (Some (mkDriver login_site [EvCdp])) None (machine None) 1)
           (mkSt (Some (mkDriver at_login [EvCdp; EvGet login_url])) None
                 (machine None) 1)
           (mkDriver login_site [EvCdp]) at_login
           (mkDriver at_login [EvCdp; EvGet login_url]) at_login login_url
           at_login 1 at_login at_login at_login 2 at_login at_login
           at_login 3 at_feed at_feed at_feed [session_cookie]
           (machine None) (machine None));
    reflexivity.
Defined.

Lemma doLogin_start_failure_masked_witness :
  doLogin creds (stopped (Some [session_cookie]) [])
  = (stopped (Some [session_cookie]) [],
     Raise (HTTPException 400 "Login didn't work, check credentials")).
Proof.
  exact (proj2 (@doLogin_start_failure_masked _ _ scripted creds
                  (stopped (Some [session_cookie]) []) []
                  (LibError "chrome not found") eq_refl eq_refl)).
Defined.

Lemma startBrowser_script_failure_keeps_handle_witness :
  doLogin creds (mkSt None None (mkMachine [no_cdp; login_site] None) 0)
  = (mkSt (Some (mkDriver no_cdp [EvCdp])) None (mkMachine [login_site] None) 1,
     Raise (HTTPException 400 "Login didn't work, check credentials")) /\
  launched (fst (doLogin creds
                   (fst (doLogin creds
                           (mkSt None None (mkMachine [no_cdp; login_site] None) 0)))))
  = 1.
Proof.
  destruct (@startBrowser_script_failure_keeps_handle _ _ navigating creds creds
              (mkSt None None (mkMachine [no_cdp; login_site] None) 0)
              (mkMachine [login_site] None) no_cdp no_cdp
              (LibError "cdp") eq_refl eq_refl eq_refl) as (_ & D & L).
  split; assumption.
Defined.

Lemma endpoints_raise_only_their_own_witness :
  snd (doLogin creds (stopped None []))
  = Raise (HTTPException 400 "Login didn't work, check credentials").
Proof.
  destruct (doLogin creds (stopped None [])) as [st' [r | x]] eqn:E.
  - vm_compute in E. discriminate.
  - cbn [snd]. f_equal.
    exact (proj1 (@endpoints_raise_only_their_own _ _ scripted (stopped None []) st' x)
             creds E).
Defined.

Lemma loadCookies_stops_at_refused_cookie_witness :
  loadCookies (serving picky (Some (Json [session_cookie; other_cookie; last_cookie]))
                       None)
  = (mkSt (Some (mkDriver (on_page picky (with_jar blank [session_cookie]))
                          [EvAddCookie session_cookie; EvAddCookie other_cookie]))
          (Some (Json [session_cookie; other_cookie; last_cookie])) (machine None) 1,
     Raise (LibError "InvalidCookieDomainException")).
Proof.
  apply (@loadCookies_stops_at_refused_cookie _ _ navigating
           (serving picky (Some (Json [session_cookie; other_cookie; last_cookie]))
                    None)
           (mkSt (Some (mkDriver (on_page picky (with_jar blank [session_cookie]))
                                 [EvAddCookie session_cookie]))
                 (Some (Json [session_cookie; other_cookie; last_cookie]))
                 (machine None) 1)
           (mkDriver picky []) [session_cookie] other_cookie [last_cookie]
           (machine None)
           (mkDriver (on_page picky (with_jar blank [session_cookie]))
                     [EvAddCookie session_cookie])
           (on_page picky (with_jar blank [session_cookie]))
           (LibError "InvalidCookieDomainException"));
    reflexivity.
Defined.

Lemma closed_session_needs_login_witness :
  sendConnect (mkConnect someone)
              (fst (closeBrowser (running blank (Some [session_cookie]))))
  = (mkSt None None [] 1,
     Raise (HTTPException 400 "Couldn't send connection request")).
Proof.
  assert (E : closeBrowser (running blank (Some [session_cookie]))
              = (mkSt None None [] 1, Ok (ok "Browser session closed")))
    by reflexivity.
  destruct (@closed_session_needs_login _ _ scripted
              (running blank (Some [session_cookie])) (mkSt None None [] 1)
              (fresh blank) (ok "Browser session closed")
              (mkConnect someone) (mkSend someone "hello") eq_refl E)
    as (_ & _ & _ & C & _).
  rewrite E. exact C.
Defined.

Lemma sendConnect_confirmation_clicked_witness :
  sendConnect (mkConnect someone) (running with_confirmation None)
  = (mkSt (Some (mkDriver (with_url with_confirmation someone)
                   [ EvGet someone;
                     EvWait XPATH "//button[contains(@aria-label, 'Invite') and contains(@aria-label, 'to connect')]" 10;
                     EvWait XPATH "//button[contains(text(), 'Connect')]" 10;
                     EvIsDisplayed 8;
                     EvMoveClick 8;
                     EvWait XPATH send_now 5;
                     EvClick 11;
                     EvGetCookies ]))
          (Some (Json [])) [] 1,
     Ok (ok "Connection request sent")).
Proof.
  apply (@sendConnect_confirmation_clicked _ _ scripted (mkConnect someone)
           (running with_confirmation None) (fresh with_confirmation)
           (with_url with_confirmation someone)
           (mkDriver (with_url with_confirmation someone)
              [ EvGet someone;
                EvWait XPATH "//button[contains(@aria-label, 'Invite') and contains(@aria-label, 'to connect')]" 10;
                EvWait XPATH "//button[contains(text(), 'Connect')]" 10;
                EvIsDisplayed 8 ])
           8 (with_url with_confirmation someone)
           (with_url with_confirmation someone) 11
           (with_url with_confirmation someone) (Ok tt)
           (with_url with_confirmation someone) [] [] []);
    reflexivity.
Defined.

Lemma checkAndMessage_sends_witness :
  checkAndMessage (mkSend someone "hello") (running messaging (Some [session_cookie]))
  = (mkSt (Some (mkDriver (with_url messaging someone)
                   [ EvGet someone;
                     EvWait XPATH first_degree_label 5;
                     EvWait XPATH message_action 5;
                     EvWait XPATH message_button 10;
                     EvMoveClick 4;
                     EvWait XPATH message_textbox 10;
                     EvSendKeys 5 "hello";
                     EvWait XPATH send_button 10;
                     EvClick 6 ]))
          (Some (Json [session_cookie])) [] 1,
     Ok (ok "Message sent successfully")).
Proof.
  apply (@checkAndMessage_sends _ _ scripted (mkSend someone "hello")
           (running messaging (Some [session_cookie])) (fresh messaging)
           (with_url messaging someone)
           (mkDriver (with_url messaging someone)
              [ EvGet someone;
                EvWait XPATH first_degree_label 5;
                EvWait XPATH message_action 5 ])
           (with_url messaging someone) 4 (with_url messaging someone)
           (with_url messaging someone) 5 (with_url messaging someone)
           (with_url messaging someone) 6 (with_url messaging someone));
    reflexivity.
Defined.

Lemma failed_operation_and_snapshot_witness :
  session_file (fst (sendConnect (mkConnect someone)
                       (serving (jammed []) (Some (Json [session_cookie]))
                                (Some disk_full))))
  = Some (Json [session_cookie]) \/
  session_file (fst (sendConnect (mkConnect someone)
                       (serving (jammed []) (Some (Json [session_cookie]))
                                (Some disk_full))))
  = Some Malformed.
Proof.
  assert (E : sendConnect (mkConnect someone)
                (serving (jammed []) (Some (Json [session_cookie])) (Some disk_full))
              = (fst (sendConnect (mkConnect someone)
                        (serving (jammed []) (Some (Json [session_cookie]))
                                 (Some disk_full))),
                 Raise (HTTPException 400 "Couldn't send connection request")))
    by reflexivity.
  exact (proj1 (proj2 (@failed_operation_and_snapshot _ _ navigating
                         (serving (jammed []) (Some (Json [session_cookie]))
                                  (Some disk_full)) _ _))
           (mkConnect someone) E).
Defined.

Lemma only_login_starts_only_close_stops_witness :
  browser (fst (closeBrowser (running blank None))) = None.
Proof.
  assert (E : closeBrowser (running blank None)
              = (fst (closeBrowser (running blank None)),
                 Ok (ok "Browser session closed"))) by reflexivity.
  exact (proj2 (proj2 (proj2 (@only_login_starts_only_close_stops _ _ scripted
                                (running blank None)))) _ _ E).
Defined.

Lemma direct_strategies_only_look_witness :
  exists suffix,
    findConnectBtn (fresh two_buttons)
    = (mkDriver two_buttons (log (fresh two_buttons) ++ suffix), Ok 8) /\
    forallb observes suffix = true.
Proof.
  assert (E : try_selectors possible_selectors (fresh two_buttons)
              = (fst (try_selectors possible_selectors (fresh two_buttons)),
                 Ok (Some 8))) by reflexivity.
  exact (proj2 (@direct_strategies_only_look _ _ scripted (fresh two_buttons)) _ _ E).
Defined.

Lemma contains_substring_witness :
  contains "feed" "https://www.linkedin.com/login?session_redirect=%2Ffeed%2F" = true.
Proof.
  apply (proj2 (contains_substring "feed"
                  "https://www.linkedin.com/login?session_redirect=%2Ffeed%2F")).
  exists "https://www.linkedin.com/login?session_redirect=%2F"%string, "%2F"%string.
  reflexivity.
Defined.

Lemma checkAndMessage_connected_without_button_witness :
  checkAndMessage (mkSend someone "hello")
    (running (mkPage "about:blank" [] [(XPATH, first_degree_label, 3)] [] [] [] false)
             None)
  = (mkSt (Some (mkDriver
                   (with_url (mkPage "about:blank" []
                                [(XPATH, first_degree_label, 3)] [] [] [] false)
                             someone)
                   [ EvGet someone;
                     EvWait XPATH first_degree_label 5;
                     EvWait XPATH message_button 10 ]))
          None [] 1,
     Raise (HTTPException 400 "Something went wrong with messaging")).
Proof.
  apply (@checkAndMessage_connected_without_button _ _ scripted
           (mkSend someone "hello")
           (running (mkPage "about:blank" [] [(XPATH, first_degree_label, 3)] [] [] [] false)
                    None)
           (fresh (mkPage "about:blank" [] [(XPATH, first_degree_label, 3)] [] [] [] false))
           (with_url (mkPage "about:blank" []
                        [(XPATH, first_degree_label, 3)] [] [] [] false) someone)
           (mkDriver
              (with_url (mkPage "about:blank" []
                           [(XPATH, first_degree_label, 3)] [] [] [] false) someone)
              [EvGet someone; EvWait XPATH first_degree_label 5])
           (with_url (mkPage "about:blank" []
                        [(XPATH, first_degree_label, 3)] [] [] [] false) someone)
           timeout_error);
    reflexivity.
Defined.

End Runs.
